(** * Device handlers of the metadata service (core/metadata/rest_device.go)

    A shallow embedding of the device REST handlers: the handlers are
    programs over the calls they make on their collaborators (the database
    client, the associate notifier, the notifications client, the clock) and
    the outputs they produce (HTTP response writes, log lines).  A program is
    run against an arbitrary environment that answers the calls; the run
    yields the returned value, the trace of calls and outputs in program
    order, and the final state of the environment. *)

From Stdlib Require Import String Ascii List ZArith Bool Lia DecimalString.
From ExtLib Require Import Structures.Monad.
Import ListNotations.
Import MonadNotation.
Local Open Scope string_scope.
Local Open Scope list_scope.
Local Open Scope monad_scope.

Set Implicit Arguments.

(** ** Values shared with the libraries the handlers use *)

(** bson.ObjectId is a string of raw bytes; [Hex] is its lowercase
    hexadecimal rendering (two digits per byte). *)
Definition ObjectId := string.

Definition hexDigit (n : N) : ascii :=
  match n with
  | 0%N => "0" | 1%N => "1" | 2%N => "2" | 3%N => "3"
  | 4%N => "4" | 5%N => "5" | 6%N => "6" | 7%N => "7"
  | 8%N => "8" | 9%N => "9" | 10%N => "a" | 11%N => "b"
  | 12%N => "c" | 13%N => "d" | 14%N => "e" | _ => "f"
  end%char.

Fixpoint Hex (id : ObjectId) : string :=
  match id with
  | EmptyString => EmptyString
  | String c rest =>
      let n := N_of_ascii c in
      String (hexDigit (N.div n 16)) (String (hexDigit (N.modulo n 16)) (Hex rest))
  end.

(** Go [error] values.  The handlers compare errors by identity with two
    sentinels, mgo.ErrNotFound and db.ErrNotUnique; every other error,
    among them the ones made with errors.New, is an [errorString]. *)
Inductive error : Type :=
| ErrNotFound
| ErrNotUnique
| errorString (s : string).

Definition errors_New (s : string) : error := errorString s.

(** err.Error(): the message of an error.  The sentinels' messages are the
    ones their packages declare. *)
Definition Error (e : error) : string :=
  match e with
  | ErrNotFound => "not found"
  | ErrNotUnique => "Resource already exists"
  | errorString s => s
  end.

Definition isErrNotFound (e : error) : bool :=
  match e with ErrNotFound => true | _ => false end.

Definition isErrNotUnique (e : error) : bool :=
  match e with ErrNotUnique => true | _ => false end.

(** The outcome of a call that fills a destination and returns an error:
    [Ok v] is a nil error with [v] stored in the destination, [Err e] a
    non-nil error with the destination left as it was. *)
Inductive result (A : Type) : Type :=
| Ok (a : A)
| Err (e : error).
Arguments Ok {A} a.
Arguments Err {A} e.

(** net/http constants. *)
Definition StatusOK : nat := 200.
Definition StatusNotFound : nat := 404.
Definition StatusConflict : nat := 409.
Definition StatusServiceUnavailable : nat := 503.
Definition MethodPost : string := "POST".
Definition MethodPut : string := "PUT".
Definition MethodDelete : string := "DELETE".

(** strconv.FormatInt(n, 10). *)
Definition FormatInt (n : Z) : string := NilZero.string_of_int (Z.to_int n).

(** ** The data model (package models) *)

Definition option_eqb {A : Type} (eqb : A -> A -> bool) (x y : option A) : bool :=
  match x, y with
  | Some a, Some b => eqb a b
  | None, None => true
  | _, _ => false
  end.

Fixpoint list_eqb {A : Type} (eqb : A -> A -> bool) (x y : list A) : bool :=
  match x, y with
  | [], [] => true
  | a :: x', b :: y' => eqb a b && list_eqb eqb x' y'
  | _, _ => false
  end.

(** The package models is not part of the handler file.  Each struct is
    given the fields the handlers read or write, and one payload field
    standing for the remaining attributes (they are copied with the struct
    and take part in its comparison with the zero value). *)
Module Addressable.
Record t : Type := Build { Id : ObjectId; Name : string; Address : string }.
Definition zero : t := Build "" "" "".
Definition eqb (a b : t) : bool :=
  String.eqb (Id a) (Id b) && String.eqb (Name a) (Name b)
  && String.eqb (Address a) (Address b).
End Addressable.

Module Service.
Record t : Type := Build { Id : ObjectId; Name : string; Labels : option (list string) }.
Definition zero : t := Build "" "" None.
Definition eqb (a b : t) : bool :=
  String.eqb (Id a) (Id b) && String.eqb (Name a) (Name b)
  && option_eqb (list_eqb String.eqb) (Labels a) (Labels b).
End Service.

Module DeviceService.
Record t : Type := Build { Service : Service.t; AdminState : string }.
Definition zero : t := Build Service.zero "".
Definition eqb (a b : t) : bool :=
  Service.eqb (Service a) (Service b) && String.eqb (AdminState a) (AdminState b).
(** Modelled from the spec: the test [x.String() == DeviceService{}.String()]
    of the handlers, whose String method the package models declares.  The
    service is compared by full equality against the zero-value service. *)
Definition isZero (a : t) : bool := eqb a zero.
End DeviceService.

Module DeviceProfile.
Record t : Type := Build { Id : ObjectId; Name : string; Manufacturer : string }.
Definition zero : t := Build "" "" "".
Definition eqb (a b : t) : bool :=
  String.eqb (Id a) (Id b) && String.eqb (Name a) (Name b)
  && String.eqb (Manufacturer a) (Manufacturer b).
(** Modelled from the spec: the test [x.String() == DeviceProfile{}.String()]
    of the handlers, analogous to the one of the service. *)
Definition isZero (a : t) : bool := eqb a zero.
End DeviceProfile.

Module DeviceReport.
Record t : Type := Build { Id : ObjectId; Name : string; Device : string }.
End DeviceReport.

(** A device.  [Labels] is a slice and [Location] an interface value: both
    can be nil, which is [None]; the timestamps are int64. *)
Module Device.
Record t : Type := Build {
  Id : ObjectId;
  Name : string;
  AdminState : string;
  OperatingState : string;
  Addressable : Addressable.t;
  LastConnected : Z;
  LastReported : Z;
  Labels : option (list string);
  Location : option string;
  Service : DeviceService.t;
  Profile : DeviceProfile.t;
  Description : string;
  Origin : Z
}.

Definition zero : t :=
  Build "" "" "" "" Addressable.zero 0 0 None None DeviceService.zero
        DeviceProfile.zero "" 0.

Definition setId (v : ObjectId) (d : t) : t :=
  Build v (Name d) (AdminState d) (OperatingState d) (Addressable d)
        (LastConnected d) (LastReported d) (Labels d) (Location d) (Service d)
        (Profile d) (Description d) (Origin d).
Definition setName (v : string) (d : t) : t :=
  Build (Id d) v (AdminState d) (OperatingState d) (Addressable d)
        (LastConnected d) (LastReported d) (Labels d) (Location d) (Service d)
        (Profile d) (Description d) (Origin d).
Definition setAdminState (v : string) (d : t) : t :=
  Build (Id d) (Name d) v (OperatingState d) (Addressable d)
        (LastConnected d) (LastReported d) (Labels d) (Location d) (Service d)
        (Profile d) (Description d) (Origin d).
Definition setOperatingState (v : string) (d : t) : t :=
  Build (Id d) (Name d) (AdminState d) v (Addressable d)
        (LastConnected d) (LastReported d) (Labels d) (Location d) (Service d)
        (Profile d) (Description d) (Origin d).
Definition setAddressable (v : Addressable.t) (d : t) : t :=
  Build (Id d) (Name d) (AdminState d) (OperatingState d) v
        (LastConnected d) (LastReported d) (Labels d) (Location d) (Service d)
        (Profile d) (Description d) (Origin d).
Definition setLastConnected (v : Z) (d : t) : t :=
  Build (Id d) (Name d) (AdminState d) (OperatingState d) (Addressable d)
        v (LastReported d) (Labels d) (Location d) (Service d)
        (Profile d) (Description d) (Origin d).
Definition setLastReported (v : Z) (d : t) : t :=
  Build (Id d) (Name d) (AdminState d) (OperatingState d) (Addressable d)
        (LastConnected d) v (Labels d) (Location d) (Service d)
        (Profile d) (Description d) (Origin d).
Definition setLabels (v : option (list string)) (d : t) : t :=
  Build (Id d) (Name d) (AdminState d) (OperatingState d) (Addressable d)
        (LastConnected d) (LastReported d) v (Location d) (Service d)
        (Profile d) (Description d) (Origin d).
Definition setLocation (v : option string) (d : t) : t :=
  Build (Id d) (Name d) (AdminState d) (OperatingState d) (Addressable d)
        (LastConnected d) (LastReported d) (Labels d) v (Service d)
        (Profile d) (Description d) (Origin d).
Definition setService (v : DeviceService.t) (d : t) : t :=
  Build (Id d) (Name d) (AdminState d) (OperatingState d) (Addressable d)
        (LastConnected d) (LastReported d) (Labels d) (Location d) v
        (Profile d) (Description d) (Origin d).
Definition setProfile (v : DeviceProfile.t) (d : t) : t :=
  Build (Id d) (Name d) (AdminState d) (OperatingState d) (Addressable d)
        (LastConnected d) (LastReported d) (Labels d) (Location d) (Service d)
        v (Description d) (Origin d).
Definition setDescription (v : string) (d : t) : t :=
  Build (Id d) (Name d) (AdminState d) (OperatingState d) (Addressable d)
        (LastConnected d) (LastReported d) (Labels d) (Location d) (Service d)
        (Profile d) v (Origin d).
Definition setOrigin (v : Z) (d : t) : t :=
  Build (Id d) (Name d) (AdminState d) (OperatingState d) (Addressable d)
        (LastConnected d) (LastReported d) (Labels d) (Location d) (Service d)
        (Profile d) (Description d) v.
End Device.

(** models.ActionType, the entity-type tag of an associate notification. *)
Inductive ActionType : Type := PROFILE | DEVICE | SERVICE | REPORT.

(** The record sent to the notifications service. *)
Inductive NotificationsCategory : Type := SECURITY | HW_HEALTH | SW_HEALTH.
Inductive NotificationsSeverity : Type := CRITICAL | NORMAL.

Module Notification.
Record t : Type := Build {
  Slug : string;
  Content : string;
  Category : NotificationsCategory;
  Description : string;
  Labels : list string;
  Sender : string;
  Severity : NotificationsSeverity
}.
End Notification.

(** The fields of the service configuration that the handlers read. *)
Module ConfigurationStruct.
Record t : Type := Build {
  NotificationPostDeviceChanges : bool;
  NotificationsSlug : string;
  NotificationContent : string;
  NotificationDescription : string;
  NotificationLabel : string;
  NotificationSender : string
}.
End ConfigurationStruct.

(** ** Calls, outputs and programs *)

(** The calls a handler makes on its collaborators: the methods of
    [dbClient], the two associate notifiers of the package (defined in
    other files), the notifications client and the clock. *)
Inductive Op : Type :=
| GetAddressableById (id : string)
| GetAddressableByName (n : string)
| GetDeviceServiceById (id : string)
| GetDeviceServiceByName (n : string)
| GetDeviceProfileById (id : string)
| GetDeviceProfileByName (n : string)
| GetDeviceById (id : string)
| GetDeviceByName (n : string)
| AddDevice (d : Device.t)
| UpdateDevice (d : Device.t)
| DeleteDevice (d : Device.t)
| GetDeviceReportByDeviceName (n : string)
| DeleteDeviceReport (r : DeviceReport.t)
| notifyAssociates (services : list DeviceService.t) (id : string)
                   (action : string) (actionType : ActionType)
| notifyDeviceReportAssociates (r : DeviceReport.t) (action : string)
| SendNotification (n : Notification.t)
| UnixNano.

(** What each call hands back.  A lookup fills its destination or fails;
    [AddDevice] takes a pointer and hands back the device as stored (with
    its new id) or fails; the other calls return an error or nil. *)
Definition Ans (op : Op) : Type :=
  match op with
  | GetAddressableById _ | GetAddressableByName _ => result Addressable.t
  | GetDeviceServiceById _ | GetDeviceServiceByName _ => result DeviceService.t
  | GetDeviceProfileById _ | GetDeviceProfileByName _ => result DeviceProfile.t
  | GetDeviceById _ | GetDeviceByName _ => result Device.t
  | AddDevice _ => result Device.t
  | UpdateDevice _ | DeleteDevice _ | DeleteDeviceReport _ => option error
  | GetDeviceReportByDeviceName _ => result (list DeviceReport.t)
  | notifyAssociates _ _ _ _ | notifyDeviceReportAssociates _ _ => option error
  | SendNotification _ => option error
  | UnixNano => Z
  end.

(** The calls that change the registry. *)
Definition is_write (op : Op) : bool :=
  match op with
  | AddDevice _ | UpdateDevice _ | DeleteDevice _ | DeleteDeviceReport _ => true
  | _ => false
  end.

(** What a handler produces: log lines and writes on the response. *)
Inductive Output : Type :=
| LogError (msg : string)
| HttpError (msg : string) (code : nat)
| HeaderSet (key value : string)
| WriteHeader (code : nat)
| Write (body : string).

Definition is_response (o : Output) : bool :=
  match o with LogError _ => false | _ => true end.

Inductive Prog (A : Type) : Type :=
| Ret (a : A)
| Call (op : Op) (k : Ans op -> Prog A)
| Emit (o : Output) (k : Prog A).
Arguments Ret {A} a.
Arguments Call {A} op k.
Arguments Emit {A} o k.

Fixpoint pbind {A B : Type} (p : Prog A) (f : A -> Prog B) : Prog B :=
  match p with
  | Ret a => f a
  | Call op k => Call op (fun x => pbind (k x) f)
  | Emit o k => Emit o (pbind k f)
  end.

#[export] Instance Monad_Prog : Monad Prog :=
  {| ret := @Ret; bind := @pbind |}.

Definition call (op : Op) : Prog (Ans op) := Call op Ret.
Definition emit (o : Output) : Prog unit := Emit o (Ret tt).

(** The two writers of the handlers. *)
Definition loggingClient_Error (msg : string) : Prog unit := emit (LogError msg).
Definition http_Error (msg : string) (code : nat) : Prog unit := emit (HttpError msg code).

(** A block of a handler that may execute [return]: [None] is the early
    return, [Some a] falls through to the rest of the body. *)
Definition orReturn {A : Type} (m : Prog (option A)) (k : A -> Prog unit) : Prog unit :=
  x <- m ;; match x with Some a => k a | None => ret tt end.

(** A block of a function of result type [error] that updates a device in
    place: a non-nil error is returned at once, with the device as updated
    so far. *)
Definition orFail (m : Prog (option error * Device.t))
  (k : Device.t -> Prog (option error * Device.t)) : Prog (option error * Device.t) :=
  x <- m ;; match x with (Some e, d) => ret (Some e, d) | (None, d) => k d end.

Notation "x <-? m ;; k" := (orReturn m (fun x => k))
  (at level 61, m at next level, right associativity) : monad_scope.
Notation "x <-! m ;; k" := (orFail m (fun x => k))
  (at level 61, m at next level, right associativity) : monad_scope.

(** ** Running a program *)

Inductive event : Type :=
| ECall (op : Op) (a : Ans op)
| EOut (o : Output).

(** An environment answers every call from its current state. *)
Record Env : Type := {
  St : Type;
  handle : forall op : Op, St -> Ans op * St
}.

Fixpoint run (E : Env) {A : Type} (p : Prog A) (s : St E) : A * list event * St E :=
  match p with
  | Ret a => (a, [], s)
  | Call op k =>
      let '(x, s1) := handle E op s in
      let '(a, tr, s2) := run E (k x) s1 in
      (a, ECall op x :: tr, s2)
  | Emit o k =>
      let '(a, tr, s2) := run E k s in
      (a, EOut o :: tr, s2)
  end.

Definition value {A S : Type} (r : A * list event * S) : A := fst (fst r).
Definition trace {A S : Type} (r : A * list event * S) : list event := snd (fst r).
Definition final {A S : Type} (r : A * list event * S) : S := snd r.

(** The calls of a trace that change the registry, and the writes on the
    response. *)
Definition is_write_event (e : event) : bool :=
  match e with ECall op _ => is_write op | EOut _ => false end.
Definition writes (tr : list event) : list event := filter is_write_event tr.
Fixpoint response (tr : list event) : list Output :=
  match tr with
  | [] => []
  | EOut o :: tr' => if is_response o then o :: response tr' else response tr'
  | ECall _ _ :: tr' => response tr'
  end.

(** ** The handlers *)

(** Modelled from the spec: models.GetOperatingState, which the package
    models declares and the handler file only calls.  An operating state
    is one of the two enumerated values ENABLED and DISABLED; any other
    string is rejected, with the empty state and [false]. *)
Definition GetOperatingState (os : string) : string * bool :=
  if String.eqb os "ENABLED" || String.eqb os "DISABLED" then (os, true)
  else ("", false).

Section Handlers.

Variable configuration : ConfigurationStruct.t.

Definition postNotification (name action : string) : Prog unit :=
  (* Only post notification if the configuration is set *)
  if ConfigurationStruct.NotificationPostDeviceChanges configuration then
    now <- call UnixNano ;;
    let notification :=
      Notification.Build
        (ConfigurationStruct.NotificationsSlug configuration
           ++ FormatInt (Z.quot now 1000000))
        (ConfigurationStruct.NotificationContent configuration
           ++ name ++ "-" ++ action)
        SW_HEALTH
        (ConfigurationStruct.NotificationDescription configuration)
        [ConfigurationStruct.NotificationLabel configuration]
        (ConfigurationStruct.NotificationSender configuration)
        NORMAL in
    _ <- call (SendNotification notification) ;;
    ret tt
  else ret tt.

(** Notify the associated device service for the device. *)
Definition notifyDeviceAssociates (d : Device.t) (action : string) : Prog (option error) :=
  (* Post the notification to the notifications service *)
  postNotification (Device.Name d) action ;;
  (* Callback for device service *)
  r <- call (GetDeviceServiceById
               (Hex (Service.Id (DeviceService.Service (Device.Service d))))) ;;
  match r with
  | Err err => loggingClient_Error (Error err) ;; ret (Some err)
  | Ok ds =>
      let services := [] ++ [ds] in
      e <- call (notifyAssociates services (Hex (Device.Id d)) action DEVICE) ;;
      match e with
      | Some err => loggingClient_Error (Error err) ;; ret (Some err)
      | None => ret None
      end
  end.

(** Post a new device.  [body] is the outcome of decoding the request
    body. *)
Definition restAddNewDevice (body : result Device.t) : Prog unit :=
  d <-? match body with
        | Err err =>
            loggingClient_Error (Error err) ;;
            http_Error (Error err) StatusServiceUnavailable ;;
            ret None
        | Ok d => ret (Some d)
        end ;;
  (* Addressable check *)
  d <-? (* Try by name *)
        (r <- call (GetAddressableByName (Addressable.Name (Device.Addressable d))) ;;
         match r with
         | Ok a => ret (Some (Device.setAddressable a d))
         | Err _ =>
             (* Try by ID *)
             r <- call (GetAddressableById (Hex (Addressable.Id (Device.Addressable d)))) ;;
             match r with
             | Ok a => ret (Some (Device.setAddressable a d))
             | Err err =>
                 loggingClient_Error (Error err) ;;
                 http_Error (Error err ++ ": A device must be associated to an Addressable")
                            StatusConflict ;;
                 ret None
             end
         end) ;;
  (* Service Check *)
  d <-? (* Try by name *)
        (r <- call (GetDeviceServiceByName
                      (Service.Name (DeviceService.Service (Device.Service d)))) ;;
         match r with
         | Ok ds => ret (Some (Device.setService ds d))
         | Err _ =>
             (* Try by ID *)
             r <- call (GetDeviceServiceById
                          (Hex (Service.Id (DeviceService.Service (Device.Service d))))) ;;
             match r with
             | Ok ds => ret (Some (Device.setService ds d))
             | Err err =>
                 loggingClient_Error (Error err) ;;
                 http_Error (Error err ++ ": A device must be associated with a device service")
                            StatusConflict ;;
                 ret None
             end
         end) ;;
  (* Profile Check *)
  d <-? (* Try by name *)
        (r <- call (GetDeviceProfileByName (DeviceProfile.Name (Device.Profile d))) ;;
         match r with
         | Ok dp => ret (Some (Device.setProfile dp d))
         | Err _ =>
             (* Try by ID *)
             r <- call (GetDeviceProfileById (Hex (DeviceProfile.Id (Device.Profile d)))) ;;
             match r with
             | Ok dp => ret (Some (Device.setProfile dp d))
             | Err err =>
                 loggingClient_Error (Error err) ;;
                 http_Error (Error err ++ ": A device must be associated with a device profile")
                            StatusConflict ;;
                 ret None
             end
         end) ;;
  (* Check operating/admin state *)
  d <-? (if String.eqb (Device.OperatingState d) "" || String.eqb (Device.AdminState d) ""
         then
           let err := errors_New "Device can't have null operating state or admin state" in
           loggingClient_Error (Error err) ;;
           http_Error (Error err) StatusConflict ;;
           ret None
         else ret (Some d)) ;;
  (* Add the device *)
  d <-? (r <- call (AddDevice d) ;;
         match r with
         | Err err =>
             (if isErrNotUnique err
              then http_Error "Duplicate name for device" StatusConflict
              else http_Error (Error err) StatusServiceUnavailable) ;;
             loggingClient_Error (Error err) ;;
             ret None
         | Ok d' => ret (Some d')
         end) ;;
  (* Notify the associates *)
  _ <- notifyDeviceAssociates d MethodPost ;;
  emit (WriteHeader StatusOK) ;;
  emit (Write (Hex (Device.Id d))).

(** The error variable and the destination of a lookup, as the code that
    follows the call reads them. *)
Definition errOf {A : Type} (r : result A) : option error :=
  match r with Ok _ => None | Err e => Some e end.
Definition destOf {A : Type} (r : result A) (old : A) : A :=
  match r with Ok a => a | Err _ => old end.
(** [err != mgo.ErrNotFound] on a possibly nil error. *)
Definition neqErrNotFound (err : option error) : bool :=
  match err with Some ErrNotFound => false | _ => true end.

(** A guarded assignment to a field of the device, [if c { to.F = v }],
    and the test [x != nil] of a slice or an interface value. *)
Definition when (c : bool) (assign : Device.t -> Device.t) (to : Device.t) : Device.t :=
  if c then assign to else to.
Definition notNil {A : Type} (x : option A) : bool :=
  match x with Some _ => true | None => false end.

(** Update the device fields: [from] is the patch, [to] the device found in
    the registry, which the function updates in place; the updated device
    is returned next to the error. *)
Definition updateDeviceFields (from to : Device.t) : Prog (option error * Device.t) :=
  to <-! (if negb (Addressable.eqb (Device.Addressable from) Addressable.zero) then
            (* Check if the new addressable exists; try ID first *)
            r <- call (GetAddressableById (Hex (Addressable.Id (Device.Addressable from)))) ;;
            match r with
            | Ok a => ret (None, Device.setAddressable a to)
            | Err _ =>
                (* Then try name *)
                r <- call (GetAddressableByName (Addressable.Name (Device.Addressable from))) ;;
                match r with
                | Ok a => ret (None, Device.setAddressable a to)
                | Err _ =>
                    ret (Some (errors_New "Addressable not found for updated device"), to)
                end
            end
          else ret (None, to)) ;;
  to <-! (if negb (DeviceService.isZero (Device.Service from)) then
            (* Check if the new service exists; try ID first *)
            r <- call (GetDeviceServiceById
                         (Hex (Service.Id (DeviceService.Service (Device.Service from))))) ;;
            match r with
            | Ok ds => ret (None, Device.setService ds to)
            | Err _ =>
                (* Then try name *)
                r <- call (GetDeviceServiceByName
                             (Service.Name (DeviceService.Service (Device.Service from)))) ;;
                match r with
                | Ok ds => ret (None, Device.setService ds to)
                | Err _ =>
                    ret (Some (errors_New "Device service not found for updated device"), to)
                end
            end
          else ret (None, to)) ;;
  to <-! (if negb (DeviceProfile.isZero (Device.Profile from)) then
            (* Check if the new profile exists; try ID first *)
            r <- call (GetDeviceProfileById (Hex (DeviceProfile.Id (Device.Profile from)))) ;;
            match r with
            | Ok dp => ret (None, Device.setProfile dp to)
            | Err _ =>
                (* Then try Name *)
                r <- call (GetDeviceProfileByName (DeviceProfile.Name (Device.Profile from))) ;;
                match r with
                | Ok dp => ret (None, Device.setProfile dp to)
                | Err _ =>
                    ret (Some (errors_New "Device profile not found for updated device"), to)
                end
            end
          else ret (None, to)) ;;
  let to := when (negb (String.eqb (Device.AdminState from) ""))
                 (Device.setAdminState (Device.AdminState from)) to in
  let to := when (negb (String.eqb (Device.Description from) ""))
                 (Device.setDescription (Device.Description from)) to in
  let to := when (notNil (Device.Labels from))
                 (Device.setLabels (Device.Labels from)) to in
  let to := when (negb (Z.eqb (Device.LastConnected from) 0))
                 (Device.setLastConnected (Device.LastConnected from)) to in
  let to := when (negb (Z.eqb (Device.LastReported from) 0))
                 (Device.setLastReported (Device.LastReported from)) to in
  let to := when (notNil (Device.Location from))
                 (Device.setLocation (Device.Location from)) to in
  let to := when (negb (String.eqb (Device.OperatingState from) ""))
                 (Device.setOperatingState (Device.OperatingState from)) to in
  let to := when (negb (Z.eqb (Device.Origin from) 0))
                 (Device.setOrigin (Device.Origin from)) to in
  if negb (String.eqb (Device.Name from) "") then
    let to := Device.setName (Device.Name from) to in
    (* Check if the name is unique *)
    r <- call (GetDeviceByName (Device.Name from)) ;;
    let err := errOf r in
    let checkD := destOf r Device.zero in
    to <-! match err with
           | Some e =>
               (* A problem occurred accessing database *)
               if neqErrNotFound err
               then loggingClient_Error (Error e) ;; ret (Some e, to)
               else ret (None, to)
           | None => ret (None, to)
           end ;;
    (* Found a device, make sure its the one we're trying to update *)
    if neqErrNotFound err then
      (* Different IDs -> Name is not unique *)
      if negb (String.eqb (Device.Id checkD) (Device.Id to)) then
        let err := errors_New "Duplicate name for Device" in
        loggingClient_Error (Error err) ;;
        ret (Some err, to)
      else ret (None, to)
    else ret (None, to)
  else ret (None, to).

(** Update the device: use ID to identify the device first, then name. *)
Definition restUpdateDevice (body : result Device.t) : Prog unit :=
  rd <-? match body with
         | Err err =>
             loggingClient_Error (Error err) ;;
             http_Error (Error err) StatusServiceUnavailable ;;
             ret None
         | Ok rd => ret (Some rd)
         end ;;
  (* Check if the device exists *)
  oldDevice <-? (* First try ID *)
                (r <- call (GetDeviceById (Hex (Device.Id rd))) ;;
                 match r with
                 | Ok oldDevice => ret (Some oldDevice)
                 | Err _ =>
                     (* Then try name *)
                     r <- call (GetDeviceByName (Device.Name rd)) ;;
                     match r with
                     | Ok oldDevice => ret (Some oldDevice)
                     | Err err =>
                         loggingClient_Error (Error err) ;;
                         http_Error (Error err) StatusNotFound ;;
                         ret None
                     end
                 end) ;;
  oldDevice <-? (x <- updateDeviceFields rd oldDevice ;;
                 match fst x with
                 | Some err =>
                     loggingClient_Error (Error err) ;;
                     http_Error (Error err) StatusServiceUnavailable ;;
                     ret None
                 | None => ret (Some (snd x))
                 end) ;;
  _ <-? (err <- call (UpdateDevice oldDevice) ;;
         match err with
         | Some err =>
             loggingClient_Error (Error err) ;;
             http_Error (Error err) StatusServiceUnavailable ;;
             ret None
         | None => ret (Some tt)
         end) ;;
  (* Notify *)
  _ <- notifyDeviceAssociates oldDevice MethodPut ;;
  emit (WriteHeader StatusOK) ;;
  emit (Write "true").

(** Set the operating state of the device with id [did] to [os]. *)
Definition restSetDeviceOpStateById (did os : string) : Prog unit :=
  let newOs := fst (GetOperatingState os) in
  let f := snd (GetOperatingState os) in
  _ <-? (if negb f then
           let err := errors_New ("Invalid State: " ++ os ++ " Must be 'ENABLED' or 'DISABLED'") in
           http_Error (Error err) StatusServiceUnavailable ;;
           loggingClient_Error (Error err) ;;
           ret None
         else ret (Some tt)) ;;
  (* Check if the device exists *)
  d <-? (r <- call (GetDeviceById did) ;;
         match r with
         | Err err =>
             (if isErrNotFound err
              then http_Error (Error err) StatusNotFound
              else http_Error (Error err) StatusServiceUnavailable) ;;
             loggingClient_Error (Error err) ;;
             ret None
         | Ok d => ret (Some d)
         end) ;;
  (* Update OpState *)
  let d := Device.setOperatingState newOs d in
  err <- call (UpdateDevice d) ;;
  _ <-? match err with
        | Some _ => ret None
        | None => ret (Some tt)
        end ;;
  _ <-? match err with
        | Some err =>
            loggingClient_Error (Error err) ;;
            http_Error (Error err) StatusServiceUnavailable ;;
            ret None
        | None => ret (Some tt)
        end ;;
  (* Notify *)
  _ <- notifyDeviceAssociates d MethodPut ;;
  emit (WriteHeader StatusOK) ;;
  emit (Write "true").

(** Set the operating state of the device named in the request; [n] is the
    outcome of unescaping the name. *)
Definition restSetDeviceOpStateByName (n : result string) (os : string) : Prog unit :=
  n <-? match n with
        | Err err =>
            loggingClient_Error (Error err) ;;
            http_Error (Error err) StatusServiceUnavailable ;;
            ret None
        | Ok n => ret (Some n)
        end ;;
  let newOs := fst (GetOperatingState os) in
  let f := snd (GetOperatingState os) in
  (* Opstate is invalid *)
  _ <-? (if negb f then
           let err := errors_New ("Invalid State: " ++ os ++ " Must be 'ENABLED' or 'DISABLED'") in
           loggingClient_Error (Error err) ;;
           http_Error (Error err) StatusServiceUnavailable ;;
           ret None
         else ret (Some tt)) ;;
  (* Check if the device exists *)
  d <-? (r <- call (GetDeviceByName n) ;;
         match r with
         | Err err =>
             (if isErrNotFound err
              then http_Error (Error err) StatusNotFound
              else http_Error (Error err) StatusServiceUnavailable) ;;
             loggingClient_Error (Error err) ;;
             ret None
         | Ok d => ret (Some d)
         end) ;;
  (* Update OpState *)
  let d := Device.setOperatingState newOs d in
  _ <-? (err <- call (UpdateDevice d) ;;
         match err with
         | Some err =>
             loggingClient_Error (Error err) ;;
             http_Error (Error err) StatusServiceUnavailable ;;
             ret None
         | None => ret (Some tt)
         end) ;;
  (* Notify *)
  _ <- notifyDeviceAssociates d MethodPut ;;
  emit (WriteHeader StatusOK) ;;
  emit (Write "true").

(** The loop of [deleteAssociatedReportsForDevice] over the reports. *)
Fixpoint deleteReports (reports : list DeviceReport.t) : Prog (option error) :=
  match reports with
  | [] => ret None
  | report :: rest =>
      err <- call (DeleteDeviceReport report) ;;
      match err with
      | Some err =>
          http_Error (Error err) StatusServiceUnavailable ;;
          loggingClient_Error (Error err) ;;
          ret (Some err)
      | None =>
          _ <- call (notifyDeviceReportAssociates report MethodDelete) ;;
          deleteReports rest
      end
  end.

(** Delete the associated device reports for the device. *)
Definition deleteAssociatedReportsForDevice (d : Device.t) : Prog (option error) :=
  r <- call (GetDeviceReportByDeviceName (Device.Name d)) ;;
  match r with
  | Err err =>
      http_Error (Error err) StatusServiceUnavailable ;;
      loggingClient_Error (Error err) ;;
      ret (Some err)
  | Ok reports =>
      (* Delete the associated reports *)
      deleteReports reports
  end.

(** Delete the device. *)
Definition deleteDevice (d : Device.t) : Prog (option error) :=
  err <- deleteAssociatedReportsForDevice d ;;
  match err with
  | Some err => http_Error (Error err) StatusServiceUnavailable ;; ret (Some err)
  | None =>
      err <- call (DeleteDevice d) ;;
      match err with
      | Some err => http_Error (Error err) StatusServiceUnavailable ;; ret (Some err)
      | None =>
          (* Notify Associates *)
          err <- notifyDeviceAssociates d MethodDelete ;;
          match err with
          | Some err => http_Error (Error err) StatusServiceUnavailable ;; ret (Some err)
          | None => ret None
          end
      end
  end.

Definition restDeleteDeviceById (did : string) : Prog unit :=
  (* Check if the device exists *)
  d <-? (r <- call (GetDeviceById did) ;;
         match r with
         | Err err =>
             (if isErrNotFound err
              then http_Error (Error err) StatusNotFound
              else http_Error (Error err) StatusServiceUnavailable) ;;
             loggingClient_Error (Error err) ;;
             ret None
         | Ok d => ret (Some d)
         end) ;;
  _ <-? (err <- deleteDevice d ;;
         match err with
         | Some err => loggingClient_Error (Error err) ;; ret None
         | None => ret (Some tt)
         end) ;;
  emit (Write "true").

Definition restDeleteDeviceByName (n : result string) : Prog unit :=
  n <-? match n with
        | Err err =>
            loggingClient_Error (Error err) ;;
            http_Error (Error err) StatusServiceUnavailable ;;
            ret None
        | Ok n => ret (Some n)
        end ;;
  (* Check if the device exists *)
  d <-? (r <- call (GetDeviceByName n) ;;
         match r with
         | Err err =>
             loggingClient_Error (Error err) ;;
             http_Error (Error err) StatusNotFound ;;
             ret None
         | Ok d => ret (Some d)
         end) ;;
  _ <-? (err <- deleteDevice d ;;
         match err with
         | Some err => loggingClient_Error (Error err) ;; ret None
         | None => ret (Some tt)
         end) ;;
  emit (HeaderSet "Content-Type" "application/json") ;;
  emit (WriteHeader StatusOK) ;;
  emit (Write "true").

End Handlers.

(** ** An in-memory registry *)

(** Modelled from the spec: the registry facade, the notification sink and
    the associate notifier, which the handlers consume and the handler file
    does not define.  This environment keeps the five collections in
    lists, looks entities up by the hexadecimal form of their id or by
    name, distinguishes not found from a backend failure, enforces the
    uniqueness of device names on add, and answers any call listed in
    [faults] with the given backend error instead of serving it.  It is
    the environment of the examples; the properties are proved for every
    environment. *)
Module Mem.
Record t : Type := Build {
  devices : list Device.t;
  addressables : list Addressable.t;
  services : list DeviceService.t;
  profiles : list DeviceProfile.t;
  reports : list DeviceReport.t;
  clock : Z;
  nextId : N;
  faults : Op -> option error
}.

Definition lookup {A : Type} (p : A -> bool) (l : list A) : result A :=
  match find p l with Some a => Ok a | None => Err ErrNotFound end.

Definition setDevices (v : list Device.t) (s : t) : t :=
  Build v (addressables s) (services s) (profiles s) (reports s) (clock s)
        (nextId s) (faults s).
Definition setReports (v : list DeviceReport.t) (s : t) : t :=
  Build (devices s) (addressables s) (services s) (profiles s) v (clock s)
        (nextId s) (faults s).

(** A new object id: twelve bytes, the decimal digits of the counter. *)
Fixpoint zeros (n : nat) : string :=
  match n with O => "" | S n' => String "0" (zeros n') end.
Definition freshId (s : t) : ObjectId :=
  let digits := NilZero.string_of_uint (N.to_uint (nextId s)) in
  String.append (zeros (12 - String.length digits)) digits.

Definition hasId (id : ObjectId) (d : Device.t) : bool := String.eqb (Device.Id d) id.

Definition serve (op : Op) (s : t) : Ans op * t :=
  match op as o return Ans o * t with
  | GetAddressableById id =>
      (lookup (fun a => String.eqb (Hex (Addressable.Id a)) id) (addressables s), s)
  | GetAddressableByName n =>
      (lookup (fun a => String.eqb (Addressable.Name a) n) (addressables s), s)
  | GetDeviceServiceById id =>
      (lookup (fun a => String.eqb (Hex (Service.Id (DeviceService.Service a))) id)
              (services s), s)
  | GetDeviceServiceByName n =>
      (lookup (fun a => String.eqb (Service.Name (DeviceService.Service a)) n)
              (services s), s)
  | GetDeviceProfileById id =>
      (lookup (fun a => String.eqb (Hex (DeviceProfile.Id a)) id) (profiles s), s)
  | GetDeviceProfileByName n =>
      (lookup (fun a => String.eqb (DeviceProfile.Name a) n) (profiles s), s)
  | GetDeviceById id =>
      (lookup (fun a => String.eqb (Hex (Device.Id a)) id) (devices s), s)
  | GetDeviceByName n =>
      (lookup (fun a => String.eqb (Device.Name a) n) (devices s), s)
  | AddDevice d =>
      if existsb (fun a => String.eqb (Device.Name a) (Device.Name d)) (devices s)
      then (Err ErrNotUnique, s)
      else
        let d' := Device.setId (freshId s) d in
        (Ok d', Build (devices s ++ [d']) (addressables s) (services s) (profiles s)
                      (reports s) (clock s) (N.succ (nextId s)) (faults s))
  | UpdateDevice d =>
      if existsb (hasId (Device.Id d)) (devices s)
      then (None, setDevices (map (fun a => if hasId (Device.Id d) a then d else a)
                                  (devices s)) s)
      else (Some ErrNotFound, s)
  | DeleteDevice d =>
      if existsb (hasId (Device.Id d)) (devices s)
      then (None, setDevices (filter (fun a => negb (hasId (Device.Id d) a)) (devices s)) s)
      else (Some ErrNotFound, s)
  | GetDeviceReportByDeviceName n =>
      (Ok (filter (fun r => String.eqb (DeviceReport.Device r) n) (reports s)), s)
  | DeleteDeviceReport r =>
      (None, setReports (filter (fun a => negb (String.eqb (DeviceReport.Id a)
                                                           (DeviceReport.Id r)))
                                (reports s)) s)
  | notifyAssociates _ _ _ _ => (None, s)
  | notifyDeviceReportAssociates _ _ => (None, s)
  | SendNotification _ => (None, s)
  | UnixNano =>
      (clock s, Build (devices s) (addressables s) (services s) (profiles s)
                      (reports s) (clock s + 1000000) (nextId s) (faults s))
  end.

(** The answer of a call that fails with [e]; the clock does not fail. *)
Definition failWith (e : error) (op : Op) (s : t) : Ans op * t :=
  match op as o return Ans o * t with
  | GetAddressableById _ | GetAddressableByName _ => (Err e, s)
  | GetDeviceServiceById _ | GetDeviceServiceByName _ => (Err e, s)
  | GetDeviceProfileById _ | GetDeviceProfileByName _ => (Err e, s)
  | GetDeviceById _ | GetDeviceByName _ => (Err e, s)
  | AddDevice _ => (Err e, s)
  | UpdateDevice _ | DeleteDevice _ | DeleteDeviceReport _ => (Some e, s)
  | GetDeviceReportByDeviceName _ => (Err e, s)
  | notifyAssociates _ _ _ _ | notifyDeviceReportAssociates _ _ => (Some e, s)
  | SendNotification _ => (Some e, s)
  | UnixNano => serve UnixNano s
  end.

Definition handle (op : Op) (s : t) : Ans op * t :=
  match faults s op with
  | Some e => failWith e op s
  | None => serve op s
  end.

Definition env : Env := Build_Env handle.

Definition noFaults : Op -> option error := fun _ => None.
End Mem.

(** ** Reading a trace *)

Definition asUpdate (e : event) : option (Device.t * option error) :=
  match e with
  | ECall op x =>
      match op as o return Ans o -> option (Device.t * option error) with
      | UpdateDevice d => fun x => Some (d, x)
      | _ => fun _ => None
      end x
  | EOut _ => None
  end.

Definition asAdd (e : event) : option (Device.t * result Device.t) :=
  match e with
  | ECall op x =>
      match op as o return Ans o -> option (Device.t * result Device.t) with
      | AddDevice d => fun x => Some (d, x)
      | _ => fun _ => None
      end x
  | EOut _ => None
  end.

Definition asDeviceByName (e : event) : option (string * result Device.t) :=
  match e with
  | ECall op x =>
      match op as o return Ans o -> option (string * result Device.t) with
      | GetDeviceByName n => fun x => Some (n, x)
      | _ => fun _ => None
      end x
  | EOut _ => None
  end.

Definition asAssociates (e : event) : option (option error) :=
  match e with
  | ECall op x =>
      match op as o return Ans o -> option (option error) with
      | notifyAssociates _ _ _ _ => fun x => Some x
      | _ => fun _ => None
      end x
  | EOut _ => None
  end.

(** The first event of a trace that the reader [f] recognises. *)
Fixpoint firstOf {A : Type} (f : event -> option A) (tr : list event) : option A :=
  match tr with
  | [] => None
  | e :: tr' => match f e with Some a => Some a | None => firstOf f tr' end
  end.

(** The registry update, the registry add, the device lookup by name and the
    associate notification of a run, with their outcomes. *)
Definition updateAttempt := firstOf asUpdate.
Definition addAttempt := firstOf asAdd.
Definition nameLookup := firstOf asDeviceByName.
Definition associateOutcome := firstOf asAssociates.

Fixpoint outputs (tr : list event) : list Output :=
  match tr with
  | [] => []
  | EOut o :: tr' => o :: outputs tr'
  | ECall _ _ :: tr' => outputs tr'
  end.



(** ** The resolver and the cascade, as the specification words them *)


(** The cascade over the enumerated reports: [cascade reports tr done
    failure] holds when [tr] deletes the reports of [done], one at a time
    and in the order of [reports], each deletion followed by its
    notification, and then either has gone through all of [reports] or
    stops at the first deletion that fails. *)
Inductive cascade : list DeviceReport.t -> list event -> list DeviceReport.t ->
                    option (DeviceReport.t * error) -> Prop :=
| cascade_done : cascade [] [] [] None
| cascade_deleted (r : DeviceReport.t) (rs : list DeviceReport.t) (x : option error)
    (tr : list event) (done : list DeviceReport.t) (failure : option (DeviceReport.t * error)) :
    cascade rs tr done failure ->
    cascade (r :: rs)
            (ECall (DeleteDeviceReport r) None
               :: ECall (notifyDeviceReportAssociates r MethodDelete) x :: tr)
            (r :: done) failure
| cascade_failed (r : DeviceReport.t) (rs : list DeviceReport.t) (e : error) :
    cascade (r :: rs)
            [ECall (DeleteDeviceReport r) (Some e);
             EOut (HttpError (Error e) StatusServiceUnavailable);
             EOut (LogError (Error e))]
            [] (Some (r, e)).

Definition deletedOk (r : DeviceReport.t) : event := ECall (DeleteDeviceReport r) None.



Definition createRejected (required : string) (c : list event) : Prop :=
  exists e, response c = [HttpError (Error e ++ required) StatusConflict].

(** The errors of the merge for the three kinds of reference. *)
Definition referenceNotFound : list string :=
  ["Addressable not found for updated device";
   "Device service not found for updated device";
   "Device profile not found for updated device"].

(** ** A concrete registry, for the examples *)
Module Scenario.

Definition cfg : ConfigurationStruct.t :=
  ConfigurationStruct.Build true "device-change-" "Device update: "
    "Metadata device notice" "metadata" "core-metadata".

Definition addr1 : Addressable.t := Addressable.Build "addressable1" "addr1" "10.0.0.1".
Definition addr2 : Addressable.t := Addressable.Build "addressable2" "addr2" "10.0.0.2".
Definition svc1 : DeviceService.t :=
  DeviceService.Build (Service.Build "devservice01" "svc1" None) "UNLOCKED".
Definition prof1 : DeviceProfile.t := DeviceProfile.Build "devprofile01" "prof1" "acme".

(** Two stored devices and the two reports of the first. *)
Definition dev1 : Device.t :=
  Device.Build "device000001" "thermostat" "UNLOCKED" "ENABLED" addr1 0 0 (Some ["hvac"]) None
               svc1 prof1 "first floor" 7.
Definition dev2 : Device.t :=
  Device.Build "device000002" "camera" "UNLOCKED" "ENABLED" addr2 0 0 None None
               svc1 prof1 "" 0.
Definition rep1 : DeviceReport.t := DeviceReport.Build "report000001" "hourly" "thermostat".
Definition rep2 : DeviceReport.t := DeviceReport.Build "report000002" "daily" "thermostat".

Definition registry (faults : Op -> option error) : Mem.t :=
  Mem.Build [dev1; dev2] [addr1; addr2] [svc1] [prof1] [rep1; rep2]
            1500000000000000000 3 faults.

Definition backendDown : error := errorString "connection refused".

(** The associate notifier fails. *)
Definition notifierDown (op : Op) : option error :=
  match op with notifyAssociates _ _ _ _ => Some backendDown | _ => None end.
(** The registry fails to delete the second report. *)
Definition reportDown (op : Op) : option error :=
  match op with
  | DeleteDeviceReport r =>
      if String.eqb (DeviceReport.Id r) "report000002" then Some backendDown else None
  | _ => None
  end.
(** The registry rejects updates. *)
Definition updateDown (op : Op) : option error :=
  match op with UpdateDevice _ => Some backendDown | _ => None end.

(** A creation candidate whose addressable carries the id of [addr1] and
    the name of [addr2]. *)
Definition candidate : Device.t :=
  Device.Build "" "valve" "UNLOCKED" "ENABLED" (Addressable.Build "addressable1" "addr2" "")
               0 0 None None
               (DeviceService.Build (Service.Build "" "svc1" None) "")
               (DeviceProfile.Build "" "prof1" "") "" 0.

(** A candidate with the name of a stored device. *)
Definition duplicate : Device.t := Device.setName "camera" candidate.

(** Patches: a new name only, the name of another device, and references
    by id. *)
Definition nameOnly : Device.t := Device.setName "boiler" Device.zero.
Definition rename : Device.t := Device.setId "device000001" nameOnly.
Definition renameToCamera : Device.t :=
  Device.setId "device000001" (Device.setName "camera" Device.zero).
End Scenario.

(** ** The setters of a single field *)

Section Setters.

Variable configuration : ConfigurationStruct.t.

(** models.GetAdminState, which the package models declares: the state
    named by a string and whether the string names one. *)
Variable GetAdminState : string -> string * bool.

(** Set the admin state of the device with id [did] to [as_]. *)
Definition restSetDeviceAdminStateById (did as_ : string) : Prog unit :=
  let newAs := fst (GetAdminState as_) in
  let f := snd (GetAdminState as_) in
  _ <-? (if negb f then
           let err := errors_New ("Invalid State: " ++ as_ ++ " Must be 'LOCKED' or 'UNLOCKED'") in
           loggingClient_Error (Error err) ;;
           http_Error (Error err) StatusServiceUnavailable ;;
           ret None
         else ret (Some tt)) ;;
  (* Check if the device exists *)
  d <-? (r <- call (GetDeviceById did) ;;
         match r with
         | Err err =>
             (if isErrNotFound err
              then http_Error (Error err) StatusNotFound
              else http_Error (Error err) StatusServiceUnavailable) ;;
             loggingClient_Error (Error err) ;;
             ret None
         | Ok d => ret (Some d)
         end) ;;
  (* Update the AdminState *)
  let d := Device.setAdminState newAs d in
  _ <-? (err <- call (UpdateDevice d) ;;
         match err with
         | Some err =>
             loggingClient_Error (Error err) ;;
             http_Error (Error err) StatusServiceUnavailable ;;
             ret None
         | None => ret (Some tt)
         end) ;;
  _ <-? (err <- notifyDeviceAssociates configuration d MethodPut ;;
         match err with
         | Some err =>
             loggingClient_Error (Error err) ;;
             http_Error (Error err) StatusServiceUnavailable ;;
             ret None
         | None => ret (Some tt)
         end) ;;
  emit (WriteHeader StatusOK) ;;
  emit (Write "true").

(** Set the admin state of the device named in the request; [n] is the
    outcome of unescaping the name. *)
Definition restSetDeviceAdminStateByName (n : result string) (as_ : string) : Prog unit :=
  n <-? match n with
        | Err err =>
            loggingClient_Error (Error err) ;;
            http_Error (Error err) StatusServiceUnavailable ;;
            ret None
        | Ok n => ret (Some n)
        end ;;
  let newAs := fst (GetAdminState as_) in
  let f := snd (GetAdminState as_) in
  _ <-? (if negb f then
           let err := errors_New ("Invalid State: " ++ as_ ++ " Must be 'LOCKED' or 'UNLOCKED'") in
           loggingClient_Error (Error err) ;;
           http_Error (Error err) StatusServiceUnavailable ;;
           ret None
         else ret (Some tt)) ;;
  (* Check if the device exists *)
  d <-? (r <- call (GetDeviceByName n) ;;
         match r with
         | Err err =>
             (if isErrNotFound err
              then http_Error (Error err) StatusNotFound
              else http_Error (Error err) StatusServiceUnavailable) ;;
             loggingClient_Error (Error err) ;;
             ret None
         | Ok d => ret (Some d)
         end) ;;
  let d := Device.setAdminState newAs d in
  (* Update the admin state *)
  _ <-? (err <- call (UpdateDevice d) ;;
         match err with
         | Some err =>
             loggingClient_Error (Error err) ;;
             http_Error (Error err) StatusServiceUnavailable ;;
             ret None
         | None => ret (Some tt)
         end) ;;
  _ <-? (err <- notifyDeviceAssociates configuration d MethodPut ;;
         match err with
         | Some err =>
             loggingClient_Error (Error err) ;;
             http_Error (Error err) StatusServiceUnavailable ;;
             ret None
         | None => ret (Some tt)
         end) ;;
  emit (WriteHeader StatusOK) ;;
  emit (Write "true").

(** Update the last connected value for the device. *)
Definition setLastConnected (d : Device.t) (time : Z) (notify : bool) : Prog (option error) :=
  let d := Device.setLastConnected time d in
  err <- call (UpdateDevice d) ;;
  match err with
  | Some err =>
      loggingClient_Error (Error err) ;;
      http_Error (Error err) StatusServiceUnavailable ;;
      ret (Some err)
  | None =>
      (if notify
       then _ <- notifyDeviceAssociates configuration d MethodPut ;; ret tt
       else ret tt) ;;
      ret None
  end.

(** Update the last reported field of the device. *)
Definition setLastReported (d : Device.t) (time : Z) (notify : bool) : Prog (option error) :=
  let d := Device.setLastReported time d in
  err <- call (UpdateDevice d) ;;
  match err with
  | Some err =>
      loggingClient_Error (Error err) ;;
      http_Error (Error err) StatusServiceUnavailable ;;
      ret (Some err)
  | None =>
      (if notify
       then _ <- notifyDeviceAssociates configuration d MethodPut ;; ret tt
       else ret tt) ;;
      ret None
  end.

(** The steps the eight handlers of the two timestamps share, as each of
    them writes them out: a parameter that fails to parse or to unescape,
    and the fetch of the device. *)
Definition parsed {A : Type} (x : result A) : Prog (option A) :=
  match x with
  | Err err =>
      loggingClient_Error (Error err) ;;
      http_Error (Error err) StatusServiceUnavailable ;;
      ret None
  | Ok a => ret (Some a)
  end.

Definition fetched (r : result Device.t) : Prog (option Device.t) :=
  match r with
  | Err err =>
      (if isErrNotFound err
       then http_Error (Error err) StatusNotFound
       else http_Error (Error err) StatusServiceUnavailable) ;;
      loggingClient_Error (Error err) ;;
      ret None
  | Ok d => ret (Some d)
  end.

(** In the handlers below [lc] and [lr] are the outcome of
    strconv.ParseInt on the timestamp of the request, [notify] the outcome
    of strconv.ParseBool on its flag, and [n] the outcome of unescaping
    the name; the parameters are checked in the order of the source. *)
Definition restSetDeviceLastConnectedById (did : string) (lc : result Z) : Prog unit :=
  lc <-? parsed lc ;;
  (* Check if the device exists *)
  d <-? (r <- call (GetDeviceById did) ;; fetched r) ;;
  (* Update last connected *)
  _ <-? (err <- setLastConnected d lc false ;;
         match err with Some _ => ret None | None => ret (Some tt) end) ;;
  emit (WriteHeader StatusOK) ;;
  emit (Write "true").

Definition restSetLastConnectedByIdNotify (did : string) (notify : result bool)
  (lc : result Z) : Prog unit :=
  notify <-? parsed notify ;;
  lc <-? parsed lc ;;
  (* Check if the device exists *)
  d <-? (r <- call (GetDeviceById did) ;; fetched r) ;;
  (* Update last connected *)
  _ <-? (err <- setLastConnected d lc notify ;;
         match err with Some _ => ret None | None => ret (Some tt) end) ;;
  emit (WriteHeader StatusOK) ;;
  emit (Write "true").

Definition restSetDeviceLastConnectedByName (n : result string) (lc : result Z) : Prog unit :=
  n <-? parsed n ;;
  lc <-? parsed lc ;;
  (* Check if the device exists *)
  d <-? (r <- call (GetDeviceByName n) ;; fetched r) ;;
  (* Update last connected *)
  _ <-? (err <- setLastConnected d lc false ;;
         match err with Some _ => ret None | None => ret (Some tt) end) ;;
  emit (WriteHeader StatusOK) ;;
  emit (Write "true").

Definition restSetDeviceLastConnectedByNameNotify (n : result string) (lc : result Z)
  (notify : result bool) : Prog unit :=
  n <-? parsed n ;;
  lc <-? parsed lc ;;
  notify <-? parsed notify ;;
  (* Check if the device exists *)
  d <-? (r <- call (GetDeviceByName n) ;; fetched r) ;;
  (* Update last connected *)
  _ <-? (err <- setLastConnected d lc notify ;;
         match err with Some _ => ret None | None => ret (Some tt) end) ;;
  emit (WriteHeader StatusOK) ;;
  emit (Write "true").

Definition restSetDeviceLastReportedById (did : string) (lr : result Z) : Prog unit :=
  lr <-? parsed lr ;;
  (* Check if the device exists *)
  d <-? (r <- call (GetDeviceById did) ;; fetched r) ;;
  (* Update Last Reported *)
  _ <-? (err <- setLastReported d lr false ;;
         match err with Some _ => ret None | None => ret (Some tt) end) ;;
  emit (WriteHeader StatusOK) ;;
  emit (Write "true").

Definition restSetDeviceLastReportedByIdNotify (did : string) (lr : result Z)
  (notify : result bool) : Prog unit :=
  lr <-? parsed lr ;;
  notify <-? parsed notify ;;
  (* Check if the device exists *)
  d <-? (r <- call (GetDeviceById did) ;; fetched r) ;;
  (* Update last reported *)
  _ <-? (err <- setLastReported d lr notify ;;
         match err with Some _ => ret None | None => ret (Some tt) end) ;;
  emit (WriteHeader StatusOK) ;;
  emit (Write "true").

Definition restSetDeviceLastReportedByName (n : result string) (lr : result Z) : Prog unit :=
  n <-? parsed n ;;
  lr <-? parsed lr ;;
  (* Check if the device exists *)
  d <-? (r <- call (GetDeviceByName n) ;; fetched r) ;;
  (* Update last reported *)
  _ <-? (err <- setLastReported d lr false ;;
         match err with Some _ => ret None | None => ret (Some tt) end) ;;
  emit (WriteHeader StatusOK) ;;
  emit (Write "true").

Definition restSetDeviceLastReportedByNameNotify (n : result string) (lr : result Z)
  (notify : result bool) : Prog unit :=
  n <-? parsed n ;;
  lr <-? parsed lr ;;
  notify <-? parsed notify ;;
  (* Check if the device exists *)
  d <-? (r <- call (GetDeviceByName n) ;; fetched r) ;;
  (* Update last reported *)
  _ <-? (err <- setLastReported d lr notify ;;
         match err with Some _ => ret None | None => ret (Some tt) end) ;;
  emit (WriteHeader StatusOK) ;;
  emit (Write "true").

End Setters.

(** ** More readers of a trace *)

Definition asDelete (e : event) : option (Device.t * option error) :=
  match e with
  | ECall op x =>
      match op as o return Ans o -> option (Device.t * option error) with
      | DeleteDevice d => fun x => Some (d, x)
      | _ => fun _ => None
      end x
  | EOut _ => None
  end.

Definition asServiceById (e : event) : option (string * result DeviceService.t) :=
  match e with
  | ECall op x =>
      match op as o return Ans o -> option (string * result DeviceService.t) with
      | GetDeviceServiceById id => fun x => Some (id, x)
      | _ => fun _ => None
      end x
  | EOut _ => None
  end.

Definition asAssociatesCall (e : event)
  : option (list DeviceService.t * string * string * ActionType * option error) :=
  match e with
  | ECall op x =>
      match op as o
            return Ans o -> option (list DeviceService.t * string * string
                                    * ActionType * option error) with
      | notifyAssociates services id action t => fun x => Some (services, id, action, t, x)
      | _ => fun _ => None
      end x
  | EOut _ => None
  end.

Definition asSendNotification (e : event) : option Notification.t :=
  match e with
  | ECall (SendNotification n) _ => Some n
  | _ => None
  end.

(** The device deletion, the lookup of the owning service by id, the call
    of the associate notifier and the notification sent out, of a run. *)
Definition deleteAttempt := firstOf asDelete.
Definition serviceLookup := firstOf asServiceById.
Definition associateCall := firstOf asAssociatesCall.
Definition notificationSent := firstOf asSendNotification.


(** The associate notifier was called and reported no error. *)
Definition delivered (tr : list event) : bool :=
  match associateOutcome tr with Some None => true | _ => false end.

(** The owning service was looked up by id, which starts the notification
    of the associates. *)
Definition notified (tr : list event) : bool :=
  match serviceLookup tr with Some _ => true | None => false end.
Definition succeeded (err : option error) : bool :=
  match err with None => true | Some _ => false end.

(** ** What the setters promise, as predicates on a trace *)

(** The device submitted to the registry update is the device the handler
    fetched under [key], changed by [set] and by nothing else. *)
Definition updatesOnly (lookup : list event -> option (string * result Device.t))
  (key : string) (set : Device.t -> Device.t) (tr : list event) : Prop :=
  match updateAttempt tr with
  | None => True
  | Some (d', _) =>
      match lookup tr with
      | Some (k, Ok d) => k = key /\ d' = set d
      | _ => False
      end
  end.

(** The answer follows the registry update alone: 200 when it succeeded,
    its error when it failed, and some error without any change of the
    registry when it was not attempted. *)
Definition answersByUpdate (tr : list event) : Prop :=
  match updateAttempt tr with
  | Some (_, None) => response tr = [WriteHeader StatusOK; Write "true"]
  | Some (_, Some e) => response tr = [HttpError (Error e) StatusServiceUnavailable]
  | None => writes tr = [] /\ exists msg code, response tr = [HttpError msg code]
  end.

(** The answer follows the delivery to the associates: 200 when the
    notifier was called and reported no error, one error otherwise. *)
Definition answersByDelivery (tr : list event) : Prop :=
  if delivered tr
  then response tr = [WriteHeader StatusOK; Write "true"]
  else exists msg code, response tr = [HttpError msg code].

(** Modelled from the spec: models.GetAdminState, for the examples.  An
    admin state is one of the two enumerated values LOCKED and UNLOCKED. *)
Definition lockedOrUnlocked (as_ : string) : string * bool :=
  if String.eqb as_ "LOCKED" || String.eqb as_ "UNLOCKED" then (as_, true)
  else ("", false).

(** ** The handlers that answer a query *)

Definition StatusRequestEntityTooLarge : nat := 413.
Definition StatusInternalServerError : nat := 500.

(** The handlers that answer a query list devices by a property, encode a
    device or a list of devices on the response and (one of them) log
    under a label: calls and outputs next to the ones above. *)
Inductive QueryOp : Type :=
| onRegistry (op : Op)
| GetAllDevices
| GetDevicesWithLabel (l : string)
| GetDevicesByProfileId (pid : string)
| GetDevicesByServiceId (sid : string)
| GetDevicesByAddressableId (aid : string).

Definition QueryAns (q : QueryOp) : Type :=
  match q with
  | onRegistry op => Ans op
  | _ => result (list Device.t)
  end.

(** What json.NewEncoder(w).Encode is given. *)
Inductive Encoded : Type :=
| oneDevice (d : Device.t)
| someDevices (l : list Device.t).

Inductive QueryOutput : Type :=
| written (o : Output)
| Encode (v : Encoded)
| LogErrorIn (msg label : string)
| LogDebugIn (msg label : string).

Inductive Query (A : Type) : Type :=
| Answer (a : A)
| Ask (q : QueryOp) (k : QueryAns q -> Query A)
| Tell (o : QueryOutput) (k : Query A).
Arguments Answer {A} a.
Arguments Ask {A} q k.
Arguments Tell {A} o k.

Fixpoint qbind {A B : Type} (p : Query A) (f : A -> Query B) : Query B :=
  match p with
  | Answer a => f a
  | Ask q k => Ask q (fun x => qbind (k x) f)
  | Tell o k => Tell o (qbind k f)
  end.

#[export] Instance Monad_Query : Monad Query :=
  {| ret := @Answer; bind := @qbind |}.

Definition ask (q : QueryOp) : Query (QueryAns q) := Ask q Answer.
Definition tell (o : QueryOutput) : Query unit := Tell o (Answer tt).

(** A block that may execute [return], as [orReturn] above. *)
Definition orStop {A : Type} (m : Query (option A)) (k : A -> Query unit) : Query unit :=
  x <- m ;; match x with Some a => k a | None => ret tt end.
Notation "x <-?? m ;; k" := (orStop m (fun x => k))
  (at level 61, m at next level, right associativity) : monad_scope.

Inductive qevent : Type :=
| asked (q : QueryOp) (a : QueryAns q)
| told (o : QueryOutput).

Record QueryEnv : Type := {
  QSt : Type;
  answer : forall q : QueryOp, QSt -> QueryAns q * QSt
}.

Fixpoint qrun (E : QueryEnv) {A : Type} (p : Query A) (s : QSt E)
  : A * list qevent * QSt E :=
  match p with
  | Answer a => (a, [], s)
  | Ask q k =>
      let '(x, s1) := answer E q s in
      let '(a, tr, s2) := qrun E (k x) s1 in
      (a, asked q x :: tr, s2)
  | Tell o k =>
      let '(a, tr, s2) := qrun E k s in
      (a, told o :: tr, s2)
  end.

Definition qtrace {A S : Type} (r : A * list qevent * S) : list qevent := snd (fst r).

(** The writes on the response, and the list calls with their answers. *)
Fixpoint answered (tr : list qevent) : list QueryOutput :=
  match tr with
  | [] => []
  | told (written (LogError _)) :: tr' => answered tr'
  | told (LogErrorIn _ _) :: tr' => answered tr'
  | told (LogDebugIn _ _) :: tr' => answered tr'
  | told o :: tr' => o :: answered tr'
  | asked _ _ :: tr' => answered tr'
  end.

Definition asListing (e : qevent) : option (QueryOp * result (list Device.t)) :=
  match e with
  | asked q x =>
      match q as o return QueryAns o -> option (QueryOp * result (list Device.t)) with
      | onRegistry _ => fun _ => None
      | q' => fun x => Some (q', x)
      end x
  | told _ => None
  end.

Fixpoint listing (tr : list qevent) : option (QueryOp * result (list Device.t)) :=
  match tr with
  | [] => None
  | e :: tr' => match asListing e with Some a => Some a | None => listing tr' end
  end.

Definition asIdLookup (e : qevent) : option (string * result Device.t) :=
  match e with
  | asked q x =>
      match q as o return QueryAns o -> option (string * result Device.t) with
      | onRegistry op =>
          match op as o return Ans o -> option (string * result Device.t) with
          | GetDeviceById id => fun x => Some (id, x)
          | _ => fun _ => None
          end
      | _ => fun _ => None
      end x
  | told _ => None
  end.

Fixpoint idLookedUp (tr : list qevent) : option (string * result Device.t) :=
  match tr with
  | [] => None
  | e :: tr' => match asIdLookup e with Some a => Some a | None => idLookedUp tr' end
  end.

Section Queries.

(** configuration.ReadMaxLimit, an int. *)
Variable ReadMaxLimit : Z.
(** bson.IsObjectIdHex. *)
Variable IsObjectIdHex : string -> bool.

Definition logError (msg : string) : Query unit := tell (written (LogError msg)).
Definition httpError (msg : string) (code : nat) : Query unit :=
  tell (written (HttpError msg code)).
Definition encodeJSON (v : Encoded) : Query unit :=
  tell (written (HeaderSet "Content-Type" "application/json")) ;;
  tell (Encode v).

Definition restGetAllDevices : Query unit :=
  res <-?? (r <- ask GetAllDevices ;;
            match r with
            | Err err =>
                logError (Error err) ;;
                httpError (Error err) StatusServiceUnavailable ;;
                ret None
            | Ok res => ret (Some res)
            end) ;;
  (* Check the max length *)
  _ <-?? (if (Z.of_nat (length res) >? ReadMaxLimit)%Z then
            let err := errors_New "Max limit exceeded" in
            logError (Error err) ;;
            httpError (Error err) StatusRequestEntityTooLarge ;;
            ret None
          else ret (Some tt)) ;;
  encodeJSON (someDevices res).

(** [label] is the outcome of unescaping the label of the request. *)
Definition restGetDevicesWithLabel (label : result string) : Query unit :=
  label <-?? match label with
             | Err err =>
                 logError (Error err) ;;
                 httpError (Error err) StatusServiceUnavailable ;;
                 ret None
             | Ok l => ret (Some l)
             end ;;
  res <-?? (r <- ask (GetDevicesWithLabel label) ;;
            match r with
            | Err err =>
                logError (Error err) ;;
                httpError (Error err) StatusServiceUnavailable ;;
                ret None
            | Ok res => ret (Some res)
            end) ;;
  encodeJSON (someDevices res).

(** The two steps the six handlers below share, as each of them writes
    them out: the check that the parent exists, and the listing. *)
Definition parent {A : Type} (r : result A) : Query (option A) :=
  match r with
  | Err err =>
      (if isErrNotFound err
       then httpError (Error err) StatusNotFound
       else httpError (Error err) StatusServiceUnavailable) ;;
      logError (Error err) ;;
      ret None
  | Ok a => ret (Some a)
  end.

Definition listed (r : result (list Device.t)) : Query (option (list Device.t)) :=
  match r with
  | Err err =>
      httpError (Error err) StatusServiceUnavailable ;;
      logError (Error err) ;;
      ret None
  | Ok res => ret (Some res)
  end.

Definition unescaped (x : result string) : Query (option string) :=
  match x with
  | Err err =>
      logError (Error err) ;;
      httpError (Error err) StatusServiceUnavailable ;;
      ret None
  | Ok a => ret (Some a)
  end.

Definition restGetDeviceByProfileId (pid : string) : Query unit :=
  (* Check if the device profile exists *)
  dp <-?? (r <- ask (onRegistry (GetDeviceProfileById pid)) ;; parent r) ;;
  res <-?? (r <- ask (GetDevicesByProfileId pid) ;; listed r) ;;
  encodeJSON (someDevices res).

Definition restGetDeviceByServiceId (sid : string) : Query unit :=
  (* Check if the device service exists *)
  ds <-?? (r <- ask (onRegistry (GetDeviceServiceById sid)) ;; parent r) ;;
  res <-?? (r <- ask (GetDevicesByServiceId sid) ;; listed r) ;;
  encodeJSON (someDevices res).

(** If the result array is empty, don't return http.NotFound, just return
    empty array. *)
Definition restGetDeviceByServiceName (sn : result string) : Query unit :=
  sn <-?? unescaped sn ;;
  (* Check if the device service exists *)
  ds <-?? (r <- ask (onRegistry (GetDeviceServiceByName sn)) ;; parent r) ;;
  (* Find devices by service ID now that you have the Service object *)
  res <-?? (r <- ask (GetDevicesByServiceId
                        (Hex (Service.Id (DeviceService.Service ds)))) ;;
            listed r) ;;
  encodeJSON (someDevices res).

Definition restGetDeviceByAddressableName (an : result string) : Query unit :=
  an <-?? unescaped an ;;
  (* Check if the addressable exists *)
  a <-?? (r <- ask (onRegistry (GetAddressableByName an)) ;; parent r) ;;
  (* Use the addressable ID now that you have the addressable object *)
  res <-?? (r <- ask (GetDevicesByAddressableId (Hex (Addressable.Id a))) ;; listed r) ;;
  encodeJSON (someDevices res).

Definition restGetDeviceByProfileName (pn : result string) : Query unit :=
  pn <-?? unescaped pn ;;
  (* Check if the device profile exists *)
  dp <-?? (r <- ask (onRegistry (GetDeviceProfileByName pn)) ;; parent r) ;;
  (* Use profile ID now that you have the profile object *)
  res <-?? (r <- ask (GetDevicesByProfileId (Hex (DeviceProfile.Id dp))) ;; listed r) ;;
  encodeJSON (someDevices res).

Definition restGetDeviceByAddressableId (aid : string) : Query unit :=
  (* Check if the addressable exists *)
  a <-?? (r <- ask (onRegistry (GetAddressableById aid)) ;; parent r) ;;
  res <-?? (r <- ask (GetDevicesByAddressableId aid) ;; listed r) ;;
  encodeJSON (someDevices res).

Definition restGetDeviceById (did : string) : Query unit :=
  res <-?? (r <- ask (onRegistry (GetDeviceById did)) ;;
            match r with
            | Err err =>
                logError (Error err) ;;
                (if isErrNotFound err
                 then httpError (Error err) StatusNotFound
                 else httpError (Error err) StatusServiceUnavailable) ;;
                ret None
            | Ok res => ret (Some res)
            end) ;;
  encodeJSON (oneDevice res).

Definition restGetDeviceByName (dn : result string) : Query unit :=
  dn <-?? unescaped dn ;;
  res <-?? (r <- ask (onRegistry (GetDeviceByName dn)) ;; parent r) ;;
  encodeJSON (oneDevice res).

(** [token] is a device name or a device id. *)
Definition restCheckForDevice (token : string) : Query unit :=
  (* Check for name first since we're using that meaning by default. *)
  r <- ask (onRegistry (GetDeviceByName token)) ;;
  let dev := destOf r Device.zero in
  _ <-?? match errOf r with
         | Some err =>
             if neqErrNotFound (errOf r) then
               tell (LogErrorIn (Error err) "restCheckForDevice") ;;
               httpError (Error err) StatusInternalServerError ;;
               ret None
             else
               tell (LogDebugIn ("device " ++ token ++ " " ++ Error err)
                                "restCheckForDevice") ;;
               ret (Some tt)
         | None => ret (Some tt)
         end ;;
  (* If lookup by name failed, see if we were passed the ID *)
  dev <-?? (if Nat.eqb (String.length (Device.Name dev)) 0 then
              if IsObjectIdHex token then
                r <- ask (onRegistry (GetDeviceById token)) ;;
                match r with
                | Err err =>
                    tell (LogErrorIn (Error err) "restCheckForDevice") ;;
                    (if isErrNotFound err
                     then httpError (Error err) StatusNotFound
                     else httpError (Error err) StatusServiceUnavailable) ;;
                    ret None
                | Ok dev => ret (Some dev)
                end
              else
                httpError ("device not found: " ++ token) StatusNotFound ;;
                ret None
            else ret (Some dev)) ;;
  encodeJSON (oneDevice dev).

End Queries.

(** ** What the query handlers promise, as predicates on a trace *)

Definition jsonOf (v : Encoded) : list QueryOutput :=
  [written (HeaderSet "Content-Type" "application/json"); Encode v].

(** The devices are listed only once the parent has been found, under the
    key [key] of the parent, and what the listing returns is encoded
    whole; a parent not found is answered 404, any failure 503. *)
Definition listsUnder {A : Type} (found : result A) (key : A -> QueryOp)
  (tr : list qevent) : Prop :=
  match found with
  | Err e =>
      listing tr = None
      /\ answered tr
         = [written (HttpError (Error e)
                       (if isErrNotFound e then StatusNotFound
                        else StatusServiceUnavailable))]
  | Ok a =>
      match listing tr with
      | Some (q, Ok res) => q = key a /\ answered tr = jsonOf (someDevices res)
      | Some (q, Err e) =>
          q = key a
          /\ answered tr = [written (HttpError (Error e) StatusServiceUnavailable)]
      | None => False
      end
  end.

(** The token is looked up as an id, when it has the form of one. *)
Definition checkedById (isHex : bool) (token : string) (tr : list qevent) : Prop :=
  if isHex then
    match idLookedUp tr with
    | Some (id, Ok dev) => id = token /\ answered tr = jsonOf (oneDevice dev)
    | Some (id, Err e) =>
        id = token
        /\ answered tr
           = [written (HttpError (Error e)
                         (if isErrNotFound e then StatusNotFound
                          else StatusServiceUnavailable))]
    | None => False
    end
  else
    idLookedUp tr = None
    /\ answered tr = [written (HttpError ("device not found: " ++ token) StatusNotFound)].


(** ** More of the in-memory registry, for the examples *)

(** Modelled from the spec: the listings of the registry facade, served
    from the collections of [Mem]. *)
Module MemQuery.

Definition hasLabel (l : string) (d : Device.t) : bool :=
  match Device.Labels d with
  | Some ls => existsb (String.eqb l) ls
  | None => false
  end.

Definition answer (q : QueryOp) (s : Mem.t) : QueryAns q * Mem.t :=
  match q as o return QueryAns o * Mem.t with
  | onRegistry op => Mem.handle op s
  | GetAllDevices => (Ok (Mem.devices s), s)
  | GetDevicesWithLabel l => (Ok (filter (hasLabel l) (Mem.devices s)), s)
  | GetDevicesByProfileId pid =>
      (Ok (filter (fun d => String.eqb (Hex (DeviceProfile.Id (Device.Profile d))) pid)
                  (Mem.devices s)), s)
  | GetDevicesByServiceId sid =>
      (Ok (filter (fun d => String.eqb
                              (Hex (Service.Id (DeviceService.Service (Device.Service d))))
                              sid)
                  (Mem.devices s)), s)
  | GetDevicesByAddressableId aid =>
      (Ok (filter (fun d => String.eqb (Hex (Addressable.Id (Device.Addressable d))) aid)
                  (Mem.devices s)), s)
  end.

Definition env : QueryEnv := Build_QueryEnv answer.
End MemQuery.

Module Cases.
(** The registry fails to look devices up by name. *)
Definition lookupDown (op : Op) : option error :=
  match op with GetDeviceByName _ => Some Scenario.backendDown | _ => None end.
(** A patch with a description and nothing else. *)
Definition describe : Device.t := Device.setDescription "attic" Device.zero.
(** A candidate without an admin state. *)
Definition stateless : Device.t := Device.setAdminState "" Scenario.candidate.
End Cases.

(** * Properties *)

Import Scenario.

(** ** Running programs *)

Lemma run_bind (E : Env) (A B : Type) (p : Prog A) (f : A -> Prog B) (s : St E) :
  run E (pbind p f) s =
  let '(a, tr1, s1) := run E p s in
  let '(b, tr2, s2) := run E (f a) s1 in
  (b, tr1 ++ tr2, s2).
Proof.
  revert s. induction p as [a | op k IH | o k IH]; intros s; simpl.
  - destruct (run E (f a) s) as [[b tr] s2]. reflexivity.
  - destruct (handle E op s) as [x s1]. rewrite IH.
    destruct (run E (k x) s1) as [[a tr1] s2].
    destruct (run E (f a) s2) as [[b tr2] s3]. reflexivity.
  - rewrite IH. destruct (run E k s) as [[a tr1] s2].
    destruct (run E (f a) s2) as [[b tr2] s3]. reflexivity.
Qed.

Lemma run_Call (E : Env) (A : Type) (op : Op) (k : Ans op -> Prog A) (s : St E) :
  run E (Call op k) s =
  (value (run E (k (fst (handle E op s))) (snd (handle E op s))),
   ECall op (fst (handle E op s))
     :: trace (run E (k (fst (handle E op s))) (snd (handle E op s))),
   final (run E (k (fst (handle E op s))) (snd (handle E op s)))).
Proof.
  cbn [run]. destruct (handle E op s) as [x s1]. cbn [fst snd].
  destruct (run E (k x) s1) as [[a tr] s2]. reflexivity.
Qed.

Lemma run_bind_proj (E : Env) (A B : Type) (p : Prog A) (f : A -> Prog B) (s : St E) :
  run E (pbind p f) s =
  (value (run E (f (value (run E p s))) (final (run E p s))),
   trace (run E p s) ++ trace (run E (f (value (run E p s))) (final (run E p s))),
   final (run E (f (value (run E p s))) (final (run E p s)))).
Proof.
  rewrite run_bind. destruct (run E p s) as [[a tr1] s1]. cbn [value trace final fst snd].
  destruct (run E (f a) s1) as [[b tr2] s2]. reflexivity.
Qed.

Lemma writes_app (tr1 tr2 : list event) : writes (tr1 ++ tr2) = writes tr1 ++ writes tr2.
Proof. apply filter_app. Qed.

Lemma response_app (tr1 tr2 : list event) :
  response (tr1 ++ tr2) = response tr1 ++ response tr2.
Proof.
  induction tr1 as [| [op x | o] tr1 IH]; cbn; [reflexivity | exact IH |].
  destruct (is_response o); cbn; rewrite IH; reflexivity.
Qed.

Lemma updateAttempt_app (tr1 tr2 : list event) :
  updateAttempt tr1 = None -> updateAttempt (tr1 ++ tr2) = updateAttempt tr2.
Proof.
  unfold updateAttempt. induction tr1 as [| e tr1 IH]; cbn; [reflexivity|].
  destruct (asUpdate e); [discriminate | exact IH].
Qed.

(** Case analysis on a run: on the answer of the next call, or on the test
    the program branches on. *)
Ltac run_step :=
  match goal with
  | |- context [handle ?E ?op ?s] =>
      let x := fresh "x" in
      let s' := fresh "s" in
      destruct (handle E op s) as [x s']; cbn in x;
      match type of x with
      | result _ => destruct x
      | option _ => destruct x
      | _ => idtac
      end
  | |- context [run _ (if ?b then _ else _) _] => destruct b eqn:?
  | |- context [pbind (if ?b then _ else _) _] => destruct b eqn:?
  end.

Ltac run_simpl :=
  cbn [run pbind bind ret Monad_Prog call emit orReturn orFail loggingClient_Error
       http_Error fst snd value trace final errOf destOf].

Ltac run_cases := run_simpl; repeat (run_step; run_simpl).

(** A field that a guarded assignment does not assign is read through
    it. *)
Lemma when_frame (B : Type) (f : Device.t -> B) (c : bool)
  (assign : Device.t -> Device.t) (to : Device.t) :
  (forall d, f (assign d) = f d) -> f (when c assign to) = f to.
Proof. intros H. unfold when. destruct c; [apply H | reflexivity]. Qed.

Ltac frame :=
  repeat (progress cbn [Device.Id Device.Addressable Device.Service Device.Profile
                        Device.setName Device.setAddressable Device.setService
                        Device.setProfile]
          || rewrite when_frame by (intros; reflexivity)).

(** ** Resolution of the references *)













(** ** Notification of the associates *)

(** C2.  With the associate notifier failing, the creation and the update
    commit their change and answer 200 as if the notification had been
    delivered; only the deletion answers with the failure (its device is
    gone all the same). *)
Theorem associate_failure_reported_by_delete_only :
  let created := run Mem.env (restAddNewDevice cfg (Ok candidate)) (registry notifierDown) in
  let updated := run Mem.env (restUpdateDevice cfg (Ok rename)) (registry notifierDown) in
  let deleted := run Mem.env (restDeleteDeviceById cfg (Hex "device000001")) (registry notifierDown) in
  (associateOutcome (trace created) = Some (Some backendDown)
   /\ response (trace created) = [WriteHeader StatusOK; Write (Hex "000000000003")]
   /\ map Device.Name (Mem.devices (final created)) = ["thermostat"; "camera"; "valve"])
  /\ (associateOutcome (trace updated) = Some (Some backendDown)
      /\ response (trace updated) = [WriteHeader StatusOK; Write "true"]
      /\ map Device.Name (Mem.devices (final updated)) = ["boiler"; "camera"])
  /\ (associateOutcome (trace deleted) = Some (Some backendDown)
      /\ response (trace deleted) = [HttpError (Error backendDown) StatusServiceUnavailable]
      /\ map Device.Name (Mem.devices (final deleted)) = ["camera"]).
Proof. vm_compute. repeat split; reflexivity. Qed.

(** Whatever the notification does, a creation whose add succeeded answers
    200 with the id of the stored device. *)
Lemma restAddNewDevice_discards_notification
  (cfg : ConfigurationStruct.t) (E : Env) (s : St E) (d d' stored : Device.t) :
  let tr := trace (run E (restAddNewDevice cfg (Ok d)) s) in
  addAttempt tr = Some (d', Ok stored) ->
  response tr = [WriteHeader StatusOK; Write (Hex (Device.Id stored))].
Proof.
  intros tr. subst tr.
  unfold restAddNewDevice, notifyDeviceAssociates, postNotification.
  run_cases; cbn; intros H; try discriminate; injection H as <- <-; reflexivity.
Qed.

(** ** Cascade delete *)

Lemma deleteReports_cascade (E : Env) (reports : list DeviceReport.t) (s : St E) :
  exists done failure,
    cascade reports (trace (run E (deleteReports reports) s)) done failure
    /\ value (run E (deleteReports reports) s) = option_map snd failure.
Proof.
  revert s. induction reports as [| r rs IH]; intros s.
  - exists [], None. split; [constructor | reflexivity].
  - cbn [deleteReports bind ret Monad_Prog pbind call]. rewrite run_Call.
    destruct (handle E (DeleteDeviceReport r) s) as [x s1]. cbn in x.
    destruct x as [e |]; cbn [fst snd value trace].
    + exists [], (Some (r, e)). split; [constructor | reflexivity].
    + cbn [pbind]. rewrite run_Call. cbn [fst snd value trace].
      match goal with |- context [run E (deleteReports rs) ?s2] =>
        destruct (IH s2) as (done & failure & Hc & Hv) end.
      exists (r :: done), failure. split; [constructor; exact Hc | exact Hv].
Qed.

Lemma cascade_prefix (reports done : list DeviceReport.t) (tr : list event)
  (failure : option (DeviceReport.t * error)) :
  cascade reports tr done failure ->
  match failure with
  | None => done = reports
  | Some (failed, _) => exists remaining, reports = done ++ failed :: remaining
  end.
Proof.
  induction 1 as [| r rs x tr done failure _ IH | r rs e]; cbn.
  - reflexivity.
  - destruct failure as [[failed e] |].
    + destruct IH as [remaining ->]. exists remaining. reflexivity.
    + congruence.
  - exists rs. reflexivity.
Qed.

Lemma cascade_writes (reports done : list DeviceReport.t) (tr : list event)
  (failure : option (DeviceReport.t * error)) :
  cascade reports tr done failure ->
  writes tr
  = map deletedOk done
    ++ match failure with
       | None => []
       | Some (failed, e) => [ECall (DeleteDeviceReport failed) (Some e)]
       end.
Proof.
  induction 1 as [| r rs x tr done failure _ IH | r rs e]; cbn.
  - reflexivity.
  - unfold writes in IH. rewrite IH. reflexivity.
  - reflexivity.
Qed.

(** C3.  The delete of a device first enumerates the reports of the
    device; the events that follow form a cascade over them: the reports
    are deleted one at a time in enumeration order, each successful
    deletion followed by its "DELETE" notification.  When a deletion
    fails, the delete stops there and returns the failure: the changes
    made to the registry are the deletions of the reports before the
    failed one and nothing else, so the device is not deleted.  Otherwise
    every enumerated report has been deleted and only then the device is
    deleted. *)
Theorem deleteDevice_cascade :
  forall (cfg : ConfigurationStruct.t) (E : Env) (s : St E) (d : Device.t),
    let r := run E (deleteDevice cfg d) s in
    let enum := fst (handle E (GetDeviceReportByDeviceName (Device.Name d)) s) in
    exists rest,
      trace r = ECall (GetDeviceReportByDeviceName (Device.Name d)) enum :: rest /\
      match enum with
      | Err e => value r = Some e /\ writes rest = []
      | Ok reports =>
          exists trc done failure tail,
            rest = trc ++ tail /\ cascade reports trc done failure /\
            match failure with
            | Some (failed, e) =>
                value r = Some e
                /\ tail = [EOut (HttpError (Error e) StatusServiceUnavailable)]
                /\ (exists remaining, reports = done ++ failed :: remaining)
                /\ writes (trace r)
                   = map deletedOk done ++ [ECall (DeleteDeviceReport failed) (Some e)]
            | None =>
                done = reports
                /\ exists x tail',
                    tail = ECall (DeleteDevice d) x :: tail'
                    /\ writes (trace r) = map deletedOk reports ++ [ECall (DeleteDevice d) x]
            end
      end.
Proof.
  intros cfg E s d r enum. subst r enum.
  unfold deleteDevice, deleteAssociatedReportsForDevice.
  cbn [bind ret Monad_Prog pbind call]. rewrite run_Call.
  destruct (handle E (GetDeviceReportByDeviceName (Device.Name d)) s) as [x s1].
  cbn in x. cbn [fst snd trace value].
  eexists; split; [reflexivity|].
  destruct x as [reports | e].
  - rewrite run_bind_proj. cbn [fst snd trace value].
    destruct (deleteReports_cascade E reports s1) as (done & failure & Hc & Hv).
    pose proof (cascade_prefix Hc) as Hp. pose proof (cascade_writes Hc) as Hw.
    rewrite Hv. exists (trace (run E (deleteReports reports) s1)), done, failure.
    eexists. split; [reflexivity|]. split; [exact Hc|].
    destruct failure as [[failed e] |]; cbn [option_map snd].
    + cbn. repeat split; try assumption.
      unfold writes in *. cbn. rewrite filter_app, Hw. cbn. apply app_nil_r.
    + split; [exact Hp|]. subst done.
      cbn [pbind]. rewrite run_Call. cbn [trace fst snd].
      eexists; eexists; split; [reflexivity|].
      unfold writes in *. cbn [filter is_write_event is_write].
      rewrite filter_app, Hw. cbn [filter is_write_event is_write].
      rewrite app_nil_r. f_equal. f_equal.
      unfold notifyDeviceAssociates, postNotification.
      run_cases; reflexivity.
  - cbn. split; reflexivity.
Qed.

(** On the in-memory registry, with the deletion of the second report
    failing: the first report is gone, the second report and the device
    are still there, and a second delete, the fault repaired, removes
    both. *)
Example deleteDevice_partial_then_retry :
  let first := run Mem.env (restDeleteDeviceByName cfg (Ok "thermostat"))
                   (registry reportDown) in
  let repaired :=
    Mem.Build (Mem.devices (final first)) (Mem.addressables (final first))
              (Mem.services (final first)) (Mem.profiles (final first))
              (Mem.reports (final first)) (Mem.clock (final first))
              (Mem.nextId (final first)) Mem.noFaults in
  let second := run Mem.env (restDeleteDeviceByName cfg (Ok "thermostat")) repaired in
  Mem.reports (final first) = [rep2]
  /\ Mem.devices (final first) = [dev1; dev2]
  /\ response (trace first)
     = [HttpError (Error backendDown) StatusServiceUnavailable;
        HttpError (Error backendDown) StatusServiceUnavailable]
  /\ Mem.reports (final second) = []
  /\ Mem.devices (final second) = [dev2]
  /\ response (trace second)
     = [HeaderSet "Content-Type" "application/json"; WriteHeader StatusOK; Write "true"].
Proof. vm_compute. repeat split; reflexivity. Qed.

(** ** The merge of an update patch *)

(** C4.  A patch that sets nothing but the name leaves every other field
    of the stored device as it was. *)
Theorem updateDeviceFields_name_only :
  forall (E : Env) (s : St E) (from to : Device.t),
    Device.Addressable from = Addressable.zero ->
    Device.Service from = DeviceService.zero ->
    Device.Profile from = DeviceProfile.zero ->
    Device.AdminState from = "" ->
    Device.Description from = "" ->
    Device.Labels from = None ->
    Device.LastConnected from = 0%Z ->
    Device.LastReported from = 0%Z ->
    Device.Location from = None ->
    Device.OperatingState from = "" ->
    Device.Origin from = 0%Z ->
    let to' := snd (value (run E (updateDeviceFields from to) s)) in
    Device.Addressable to' = Device.Addressable to
    /\ Device.Service to' = Device.Service to
    /\ Device.Profile to' = Device.Profile to
    /\ Device.AdminState to' = Device.AdminState to
    /\ Device.Description to' = Device.Description to
    /\ Device.Labels to' = Device.Labels to
    /\ Device.LastConnected to' = Device.LastConnected to
    /\ Device.LastReported to' = Device.LastReported to
    /\ Device.Location to' = Device.Location to
    /\ Device.OperatingState to' = Device.OperatingState to
    /\ Device.Origin to' = Device.Origin to
    /\ Device.Id to' = Device.Id to.
Proof.
  intros E s from to HA HS HP Has Hd Hl Hlc Hlr Hloc Hos Ho to'. subst to'.
  unfold updateDeviceFields.
  rewrite HA, HS, HP, Has, Hd, Hl, Hlc, Hlr, Hloc, Hos, Ho.
  unfold when. cbn. run_cases; cbn; repeat split; reflexivity.
Qed.

Lemma updateDeviceFields_name_only_witness :
  Device.Addressable
    (snd (value (run Mem.env (updateDeviceFields nameOnly dev1) (registry Mem.noFaults))))
  = addr1.
Proof.
  refine (proj1 (@updateDeviceFields_name_only Mem.env (registry Mem.noFaults)
                   nameOnly dev1 _ _ _ _ _ _ _ _ _ _ _)); reflexivity.
Defined.



(** The merge only reads the registry and writes nothing on the response. *)
Lemma updateDeviceFields_reads_only (E : Env) (s : St E) (from to : Device.t) :
  let tr := trace (run E (updateDeviceFields from to) s) in
  writes tr = [] /\ response tr = [] /\ updateAttempt tr = None.
Proof.
  unfold updateDeviceFields. run_cases; cbn; repeat split; reflexivity.
Qed.

(** The errors of the merge: an unresolvable reference, a duplicate name,
    or the failure of the name lookup other than not found. *)
Lemma updateDeviceFields_errors (E : Env) (s : St E) (from to : Device.t) (e : error) :
  let r := run E (updateDeviceFields from to) s in
  fst (value r) = Some e ->
  (exists msg, In msg referenceNotFound /\ e = errors_New msg)
  \/ e = errors_New "Duplicate name for Device"
  \/ (nameLookup (trace r) = Some (Device.Name from, Err e) /\ e <> ErrNotFound).
Proof.
  unfold updateDeviceFields. run_cases; cbn; intros H; try discriminate;
    injection H as <-;
    first [ left; eexists; split; [|reflexivity]; cbn; tauto
          | right; left; reflexivity
          | right; right; split; [reflexivity|];
            match goal with Hb : neqErrNotFound (Some ?e0) = true |- _ =>
              destruct e0; cbn in Hb; discriminate end ].
Qed.

(** ** Setting the operating state *)

Lemma GetOperatingState_invalid (os : string) :
  os <> "ENABLED" -> os <> "DISABLED" -> GetOperatingState os = ("", false).
Proof.
  intros H1 H2. unfold GetOperatingState.
  destruct (String.eqb_spec os "ENABLED"); [contradiction|].
  destruct (String.eqb_spec os "DISABLED"); [contradiction|]. reflexivity.
Qed.

(** Whatever [models.GetOperatingState] accepts, a state that it rejects
    is answered with the invalid-state error before any call is made. *)
Lemma restSetDeviceOpState_rejected
  (cfg : ConfigurationStruct.t) (E : Env) (s : St E) (did n os : string) :
  snd (GetOperatingState os) = false ->
  let msg := ("Invalid State: " ++ os ++ " Must be 'ENABLED' or 'DISABLED'")%string in
  run E (restSetDeviceOpStateById cfg did os) s
  = (tt, [EOut (HttpError msg StatusServiceUnavailable); EOut (LogError msg)], s)
  /\ run E (restSetDeviceOpStateByName cfg (Ok n) os) s
     = (tt, [EOut (LogError msg); EOut (HttpError msg StatusServiceUnavailable)], s).
Proof.
  intros H msg. unfold restSetDeviceOpStateById, restSetDeviceOpStateByName.
  rewrite H. split; reflexivity.
Qed.

(** C6.  A request to set the operating state to a string other than
    ENABLED and DISABLED is answered with the invalid-state error, by id
    and by name alike, and the handler makes no call at all: the registry
    is neither read nor written and the environment is left in the state
    it was in. *)
Theorem restSetDeviceOpState_invalid_state :
  forall (cfg : ConfigurationStruct.t) (E : Env) (s : St E) (did n os : string),
    os <> "ENABLED" -> os <> "DISABLED" ->
    let msg := ("Invalid State: " ++ os ++ " Must be 'ENABLED' or 'DISABLED'")%string in
    run E (restSetDeviceOpStateById cfg did os) s
    = (tt, [EOut (HttpError msg StatusServiceUnavailable); EOut (LogError msg)], s)
    /\ run E (restSetDeviceOpStateByName cfg (Ok n) os) s
       = (tt, [EOut (LogError msg); EOut (HttpError msg StatusServiceUnavailable)], s).
Proof.
  intros cfg E s did n os H1 H2 msg.
  apply restSetDeviceOpState_rejected.
  rewrite (GetOperatingState_invalid H1 H2). reflexivity.
Qed.

Lemma restSetDeviceOpState_invalid_state_witness :
  run Mem.env (restSetDeviceOpStateById cfg (Hex "device000001") "BROKEN") (registry Mem.noFaults)
  = (tt,
     [EOut (HttpError "Invalid State: BROKEN Must be 'ENABLED' or 'DISABLED'"
                      StatusServiceUnavailable);
      EOut (LogError "Invalid State: BROKEN Must be 'ENABLED' or 'DISABLED'")],
     registry Mem.noFaults).
Proof.
  refine (proj1 (@restSetDeviceOpState_invalid_state cfg Mem.env (registry Mem.noFaults)
                   (Hex "device000001") "thermostat" "BROKEN" _ _)); discriminate.
Defined.

(** C9.  In the handler that sets the operating state by id, once the
    registry update has been attempted no error is ever written on the
    response, and when the update fails the handler produces no output at
    all, neither a response nor a log line: the failure is swallowed and
    the error branch that follows the update is dead. *)
Theorem restSetDeviceOpStateById_update_failure_silent :
  forall (cfg : ConfigurationStruct.t) (E : Env) (s : St E) (did os : string)
         (d : Device.t) (x : option error),
    let tr := trace (run E (restSetDeviceOpStateById cfg did os) s) in
    updateAttempt tr = Some (d, x) ->
    (x <> None -> outputs tr = [])
    /\ (forall msg code, ~ In (EOut (HttpError msg code)) tr).
Proof.
  intros cfg E s did os d x tr. subst tr.
  unfold restSetDeviceOpStateById, notifyDeviceAssociates, postNotification.
  destruct (GetOperatingState os) as [newOs f].
  run_cases; cbn; intros H; try discriminate; injection H as <- <-;
    (split; [intros Hx; try reflexivity; contradiction|]);
    intros msg code HIn;
    repeat (destruct HIn as [HIn | HIn]; [discriminate|]); exact HIn.
Qed.

Lemma restSetDeviceOpStateById_update_failure_silent_witness :
  outputs (trace (run Mem.env (restSetDeviceOpStateById cfg (Hex "device000001") "DISABLED")
                      (registry updateDown))) = [].
Proof.
  refine (proj1 (@restSetDeviceOpStateById_update_failure_silent cfg Mem.env
                   (registry updateDown) (Hex "device000001") "DISABLED"
                   (Device.setOperatingState "DISABLED" dev1) (Some backendDown) _) _).
  - reflexivity.
  - discriminate.
Defined.

(** The sibling handler, by name, reports the same failure. *)
Lemma restSetDeviceOpStateByName_reports_update_failure
  (cfg : ConfigurationStruct.t) (E : Env) (s : St E) (n os : string)
  (d : Device.t) (e : error) :
  let tr := trace (run E (restSetDeviceOpStateByName cfg (Ok n) os) s) in
  updateAttempt tr = Some (d, Some e) ->
  response tr = [HttpError (Error e) StatusServiceUnavailable].
Proof.
  intros tr. subst tr.
  unfold restSetDeviceOpStateByName, notifyDeviceAssociates, postNotification.
  destruct (GetOperatingState os) as [newOs f].
  run_cases; cbn; intros H; try discriminate; injection H as <- <-; reflexivity.
Qed.

(** ** Creation *)

(** The creation gives up before the add only for an unresolvable
    reference or an empty state. *)
Lemma restAddNewDevice_rejected_before_add
  (cfg : ConfigurationStruct.t) (E : Env) (s : St E) (d : Device.t) :
  let tr := trace (run E (restAddNewDevice cfg (Ok d)) s) in
  addAttempt tr = None ->
  createRejected ": A device must be associated to an Addressable" tr
  \/ createRejected ": A device must be associated with a device service" tr
  \/ createRejected ": A device must be associated with a device profile" tr
  \/ response tr
     = [HttpError "Device can't have null operating state or admin state" StatusConflict].
Proof.
  intros tr. subst tr.
  unfold createRejected, restAddNewDevice, notifyDeviceAssociates, postNotification.
  run_cases; cbn; intros H; try discriminate;
    first [ left; eexists; reflexivity
          | right; left; eexists; reflexivity
          | right; right; left; eexists; reflexivity
          | right; right; right; reflexivity ].
Qed.

(** C7.  When the creation submits a device to the registry and the add
    fails, a uniqueness violation is answered with the conflict "Duplicate
    name for device" and any other failure with service unavailable; the
    rejected add is the only change the handler asks of the registry. *)
Theorem restAddNewDevice_add_failure :
  forall (cfg : ConfigurationStruct.t) (E : Env) (s : St E) (d d' : Device.t) (e : error),
    let tr := trace (run E (restAddNewDevice cfg (Ok d)) s) in
    addAttempt tr = Some (d', Err e) ->
    (e = ErrNotUnique ->
     response tr = [HttpError "Duplicate name for device" StatusConflict])
    /\ (e <> ErrNotUnique ->
        response tr = [HttpError (Error e) StatusServiceUnavailable])
    /\ writes tr = [ECall (AddDevice d') (Err e)].
Proof.
  intros cfg E s d d' e tr. subst tr.
  unfold restAddNewDevice, notifyDeviceAssociates, postNotification.
  run_cases; cbn; intros H; try discriminate;
    injection H as <- <-;
    (split; [|split]; [intros He | intros He | reflexivity]);
    match goal with Hb : isErrNotUnique ?e0 = _ |- _ => destruct e0 end;
    try discriminate; try congruence; reflexivity.
Qed.

(** The candidate [duplicate] has the name of a stored device: its
    references resolve, its states are set, the registry rejects the add
    and stores nothing. *)
Lemma restAddNewDevice_add_failure_witness :
  response (trace (run Mem.env (restAddNewDevice cfg (Ok duplicate)) (registry Mem.noFaults)))
  = [HttpError "Duplicate name for device" StatusConflict]
  /\ Mem.devices (final (run Mem.env (restAddNewDevice cfg (Ok duplicate))
                             (registry Mem.noFaults)))
     = [dev1; dev2].
Proof.
  split; [| reflexivity].
  refine (proj1 (@restAddNewDevice_add_failure cfg Mem.env (registry Mem.noFaults)
                   duplicate
                   (Device.setProfile prof1
                      (Device.setService svc1 (Device.setAddressable addr2 duplicate)))
                   ErrNotUnique _) _); reflexivity.
Defined.

(** ** Update *)

(** C8.  The update looks the stored device up by the id of the patch
    first.  When that lookup succeeds the merge runs next, on the device
    found.  Only when it fails is the device looked up by the name of the
    patch; the merge then runs on the device found by name, and when this
    lookup fails too the handler answers not found and does nothing
    else. *)
Theorem restUpdateDevice_lookup_id_then_name :
  forall (cfg : ConfigurationStruct.t) (E : Env) (s : St E) (rd : Device.t),
    let byId := handle E (GetDeviceById (Hex (Device.Id rd))) s in
    let byName := handle E (GetDeviceByName (Device.Name rd)) (snd byId) in
    let merge old s1 := trace (run E (updateDeviceFields rd old) s1) in
    exists rest,
      trace (run E (restUpdateDevice cfg (Ok rd)) s)
      = ECall (GetDeviceById (Hex (Device.Id rd))) (fst byId) :: rest /\
      match fst byId with
      | Ok old => exists tail, rest = merge old (snd byId) ++ tail
      | Err _ =>
          exists rest',
            rest = ECall (GetDeviceByName (Device.Name rd)) (fst byName) :: rest' /\
            match fst byName with
            | Ok old => exists tail, rest' = merge old (snd byName) ++ tail
            | Err e =>
                rest' = [EOut (LogError (Error e)); EOut (HttpError (Error e) StatusNotFound)]
            end
      end.
Proof.
  intros cfg E s rd byId byName merge. subst merge.
  unfold restUpdateDevice, orReturn. cbn [bind ret Monad_Prog pbind call].
  rewrite run_Call. fold byId. cbn [trace fst snd].
  eexists; split; [reflexivity|].
  destruct (fst byId) as [old | e1].
  - cbn [pbind]. rewrite 2!run_bind_proj. cbn [trace fst snd].
    rewrite <- app_assoc. eexists; reflexivity.
  - cbn [pbind]. rewrite run_Call. fold byName. cbn [trace fst snd].
    eexists; split; [reflexivity|].
    destruct (fst byName) as [old | e2].
    + cbn [pbind]. rewrite 2!run_bind_proj. cbn [trace fst snd].
      rewrite <- app_assoc. eexists; reflexivity.
    + reflexivity.
Qed.

(** A patch that names no stored device, by id or by name. *)
Example restUpdateDevice_not_found :
  run Mem.env (restUpdateDevice cfg (Ok nameOnly)) (registry Mem.noFaults)
  = (tt,
     [ECall (GetDeviceById "") (Err ErrNotFound);
      ECall (GetDeviceByName "boiler") (Err ErrNotFound);
      EOut (LogError "not found");
      EOut (HttpError "not found" StatusNotFound)],
     registry Mem.noFaults).
Proof. reflexivity. Qed.

(** C10.  When the device to update has been found, by id or else by
    name, and the merge of the patch into it returns an error, the update
    answers with that error and never calls the registry update; no call
    of the run changes the registry, and the run ends in the state the
    merge left.  The error is an unresolvable reference, a duplicate name,
    or the failure of the name lookup. *)
Theorem restUpdateDevice_merge_error :
  forall (cfg : ConfigurationStruct.t) (E : Env) (s s1 : St E) (rd old : Device.t) (e : error),
    (handle E (GetDeviceById (Hex (Device.Id rd))) s = (Ok old, s1)
     \/ exists e1 s0,
         handle E (GetDeviceById (Hex (Device.Id rd))) s = (Err e1, s0)
         /\ handle E (GetDeviceByName (Device.Name rd)) s0 = (Ok old, s1)) ->
    let merge := run E (updateDeviceFields rd old) s1 in
    fst (value merge) = Some e ->
    let r := run E (restUpdateDevice cfg (Ok rd)) s in
    updateAttempt (trace r) = None
    /\ writes (trace r) = []
    /\ response (trace r) = [HttpError (Error e) StatusServiceUnavailable]
    /\ final r = final merge
    /\ ((exists msg, In msg referenceNotFound /\ e = errors_New msg)
        \/ e = errors_New "Duplicate name for Device"
        \/ (nameLookup (trace merge) = Some (Device.Name rd, Err e) /\ e <> ErrNotFound)).
Proof.
  intros cfg E s s1 rd old e Hfound merge He r.
  pose proof (updateDeviceFields_reads_only E s1 rd old) as (Hw & Hr & Hu).
  pose proof (@updateDeviceFields_errors E s1 rd old e He) as Hkind.
  fold merge in Hw, Hr, Hu, Hkind.
  assert (Hrun : exists pre,
             r = (tt, pre ++ trace merge
                      ++ [EOut (LogError (Error e));
                          EOut (HttpError (Error e) StatusServiceUnavailable)],
                  final merge)
             /\ writes pre = [] /\ response pre = [] /\ updateAttempt pre = None).
  { subst r. unfold restUpdateDevice, orReturn.
    cbn [bind ret Monad_Prog pbind call]. rewrite run_Call.
    destruct Hfound as [H1 | (e1 & s0 & H1 & H2)]; rewrite H1; cbn [fst snd pbind].
    - rewrite 2!run_bind_proj. fold merge. rewrite He.
      exists [ECall (GetDeviceById (Hex (Device.Id rd))) (Ok old)].
      cbn. rewrite app_nil_r. repeat split; reflexivity.
    - rewrite run_Call, H2. cbn [fst snd pbind].
      rewrite 2!run_bind_proj. fold merge. rewrite He.
      exists [ECall (GetDeviceById (Hex (Device.Id rd))) (Err e1);
              ECall (GetDeviceByName (Device.Name rd)) (Ok old)].
      cbn. rewrite app_nil_r. repeat split; reflexivity. }
  destruct Hrun as (pre & -> & Hpw & Hpr & Hpu). cbn [trace final fst snd].
  rewrite !writes_app, !response_app, Hpw, Hpr, Hw, Hr.
  rewrite (@updateAttempt_app _ _ Hpu), (@updateAttempt_app _ _ Hu).
  repeat split; try reflexivity. exact Hkind.
Qed.

(** The update of [dev1] with the name of [dev2]: the merge reports the
    duplicate and the registry is left as it was. *)
Lemma restUpdateDevice_merge_error_witness :
  updateAttempt (trace (run Mem.env (restUpdateDevice cfg (Ok renameToCamera))
                            (registry Mem.noFaults))) = None
  /\ final (run Mem.env (restUpdateDevice cfg (Ok renameToCamera)) (registry Mem.noFaults))
     = registry Mem.noFaults.
Proof.
  split; [| reflexivity].
  refine (proj1 (@restUpdateDevice_merge_error cfg Mem.env (registry Mem.noFaults)
                   (registry Mem.noFaults) renameToCamera dev1
                   (errors_New "Duplicate name for Device") _ _)).
  - left. reflexivity.
  - reflexivity.
Defined.

(** * Further properties of the handlers *)

(** ** The merge *)

(** X1.  The merge never changes the identity of the stored device,
    whatever the patch carries (an id of its own included) and whether the
    merge succeeds or fails. *)
Theorem updateDeviceFields_keeps_Id :
  forall (E : Env) (s : St E) (from to : Device.t),
    Device.Id (snd (value (run E (updateDeviceFields from to) s))) = Device.Id to.
Proof.
  intros E s from to. unfold updateDeviceFields.
  run_cases; cbn [value fst snd]; frame; reflexivity.
Qed.

Lemma when_assign (B : Type) (f : Device.t -> B) (c : bool)
  (assign : Device.t -> Device.t) (to : Device.t) :
  f (when c assign to) = if c then f (assign to) else f to.
Proof. unfold when. destruct c; reflexivity. Qed.

Ltac through f :=
  repeat first
    [ progress cbn [f Device.setId Device.setName Device.setAdminState
                    Device.setOperatingState Device.setAddressable
                    Device.setLastConnected Device.setLastReported
                    Device.setLabels Device.setLocation Device.setService
                    Device.setProfile Device.setDescription Device.setOrigin]
    | rewrite (@when_frame _ f) by (intros; reflexivity)
    | rewrite (@when_assign _ f) ].

(** X2.  When the merge succeeds, each scalar field of the merged device
    is the one of the patch if the patch sets it (non-empty string,
    non-zero timestamp, non-nil labels or location) and the stored one
    otherwise; labels are replaced, not merged. *)
Theorem updateDeviceFields_overwrites_set_fields :
  forall (E : Env) (s : St E) (from to : Device.t),
    let r := run E (updateDeviceFields from to) s in
    let to' := snd (value r) in
    fst (value r) = None ->
    Device.AdminState to'
    = (if negb (Device.AdminState from =? "")
       then Device.AdminState from else Device.AdminState to)
    /\ Device.Description to'
       = (if negb (Device.Description from =? "")
          then Device.Description from else Device.Description to)
    /\ Device.Labels to'
       = (if notNil (Device.Labels from) then Device.Labels from else Device.Labels to)
    /\ Device.LastConnected to'
       = (if negb (Device.LastConnected from =? 0)%Z
          then Device.LastConnected from else Device.LastConnected to)
    /\ Device.LastReported to'
       = (if negb (Device.LastReported from =? 0)%Z
          then Device.LastReported from else Device.LastReported to)
    /\ Device.Location to'
       = (if notNil (Device.Location from) then Device.Location from else Device.Location to)
    /\ Device.OperatingState to'
       = (if negb (Device.OperatingState from =? "")
          then Device.OperatingState from else Device.OperatingState to)
    /\ Device.Origin to'
       = (if negb (Device.Origin from =? 0)%Z
          then Device.Origin from else Device.Origin to)
    /\ Device.Name to'
       = (if negb (Device.Name from =? "") then Device.Name from else Device.Name to).
Proof.
  intros E s from to r to'. subst r to'. unfold updateDeviceFields.
  run_cases; cbn [value fst snd]; intros H; try discriminate H; clear H;
    repeat match goal with
      | H : negb (Device.Name from =? "") = _ |- _ => rewrite H; clear H
      end;
    repeat split.
  all: match goal with
       | |- ?f _ = _ => through f
       end; reflexivity.
Qed.

Lemma updateDeviceFields_overwrites_set_fields_witness :
  Device.Description
    (snd (value (run Mem.env (updateDeviceFields Cases.describe dev1)
                     (registry Mem.noFaults))))
  = "attic"
  /\ Device.Labels
       (snd (value (run Mem.env (updateDeviceFields Cases.describe dev1)
                        (registry Mem.noFaults))))
     = Some ["hvac"].
Proof.
  pose proof (@updateDeviceFields_overwrites_set_fields Mem.env (registry Mem.noFaults)
                Cases.describe dev1 eq_refl) as H.
  split; [exact (proj1 (proj2 H)) | exact (proj1 (proj2 (proj2 H)))].
Defined.

(** X3.  A patch without references and without a name is merged
    without consulting the registry: no call, no output, no error. *)
Theorem updateDeviceFields_scalars_only :
  forall (E : Env) (s : St E) (from to : Device.t),
    Device.Addressable from = Addressable.zero ->
    Device.Service from = DeviceService.zero ->
    Device.Profile from = DeviceProfile.zero ->
    Device.Name from = "" ->
    let r := run E (updateDeviceFields from to) s in
    fst (value r) = None /\ trace r = [] /\ final r = s.
Proof.
  intros E s from to HA HS HP HN r. subst r. unfold updateDeviceFields.
  rewrite HA, HS, HP, HN. repeat split.
Qed.

Lemma updateDeviceFields_scalars_only_witness :
  trace (run Mem.env (updateDeviceFields Cases.describe dev1)
             (registry Mem.noFaults)) = [].
Proof.
  refine (proj1 (proj2 (@updateDeviceFields_scalars_only Mem.env (registry Mem.noFaults)
                          Cases.describe dev1 _ _ _ _)));
    reflexivity.
Defined.

(** ** The notification *)

(** X7.  The notification of the associates never changes the registry
    and writes nothing on the response.  It sends the external
    notification exactly when the configuration asks for it, with the
    content prefix, the device name, a dash and the action, and ignores
    its outcome.  It looks the owning service up by the id embedded in the
    device: a failed lookup is the result and the notifier is not called;
    otherwise the notifier gets that one service, the id of the device,
    the action and the DEVICE tag, and its answer is the result. *)
Theorem notifyDeviceAssociates_outcome :
  forall (cfg : ConfigurationStruct.t) (E : Env) (s : St E) (d : Device.t) (action : string),
    let r := run E (notifyDeviceAssociates cfg d action) s in
    writes (trace r) = [] /\ response (trace r) = []
    /\ match notificationSent (trace r) with
       | Some n =>
           ConfigurationStruct.NotificationPostDeviceChanges cfg = true
           /\ Notification.Content n
              = (ConfigurationStruct.NotificationContent cfg
                   ++ Device.Name d ++ "-" ++ action)%string
       | None => ConfigurationStruct.NotificationPostDeviceChanges cfg = false
       end
    /\ match serviceLookup (trace r) with
       | Some (id, Ok ds) =>
           id = Hex (Service.Id (DeviceService.Service (Device.Service d)))
           /\ associateCall (trace r) = Some ([ds], Hex (Device.Id d), action, DEVICE, value r)
       | Some (id, Err e) =>
           id = Hex (Service.Id (DeviceService.Service (Device.Service d)))
           /\ associateCall (trace r) = None /\ value r = Some e
       | None => False
       end.
Proof.
  intros cfg E s d action r. subst r.
  unfold notifyDeviceAssociates, postNotification.
  run_cases; cbn; repeat split; reflexivity.
Qed.

(** ** Creation, further *)

(** X5.  A candidate with an empty operating state or an empty admin
    state is never submitted to the registry: the creation answers with a
    conflict, for the state or for a reference that did not resolve. *)
Theorem restAddNewDevice_requires_states :
  forall (cfg : ConfigurationStruct.t) (E : Env) (s : St E) (d : Device.t),
    Device.OperatingState d = "" \/ Device.AdminState d = "" ->
    let tr := trace (run E (restAddNewDevice cfg (Ok d)) s) in
    addAttempt tr = None /\ writes tr = []
    /\ (createRejected ": A device must be associated to an Addressable" tr
        \/ createRejected ": A device must be associated with a device service" tr
        \/ createRejected ": A device must be associated with a device profile" tr
        \/ response tr
           = [HttpError "Device can't have null operating state or admin state"
                        StatusConflict]).
Proof.
  intros cfg E s d H tr. subst tr.
  assert (Hs : (Device.OperatingState d =? "") || (Device.AdminState d =? "") = true).
  { destruct H as [-> | ->]; cbn; [reflexivity | apply orb_true_r]. }
  unfold createRejected, restAddNewDevice, notifyDeviceAssociates, postNotification.
  run_cases;
    try match goal with
      | Hb : _ || _ = false |- _ => cbn in Hb; rewrite Hs in Hb; discriminate Hb
      end;
    cbn; (split; [reflexivity|]); (split; [reflexivity|]);
    first [ left; eexists; reflexivity
          | right; left; eexists; reflexivity
          | right; right; left; eexists; reflexivity
          | right; right; right; reflexivity ].
Qed.

Lemma restAddNewDevice_requires_states_witness :
  addAttempt (trace (run Mem.env
                         (restAddNewDevice cfg (Ok Cases.stateless))
                         (registry Mem.noFaults))) = None.
Proof.
  refine (proj1 (@restAddNewDevice_requires_states cfg Mem.env (registry Mem.noFaults)
                   Cases.stateless _)).
  right. reflexivity.
Defined.


(** ** Update, further *)

Lemma firstOf_app (A : Type) (f : event -> option A) (tr1 tr2 : list event) :
  firstOf f (tr1 ++ tr2)
  = match firstOf f tr1 with Some a => Some a | None => firstOf f tr2 end.
Proof.
  induction tr1 as [| e tr1 IH]; cbn; [reflexivity|].
  destruct (f e); [reflexivity | exact IH].
Qed.

(** X4.  When the device has been found and the merge succeeds, the
    update submits the merged device to the registry.  A failure of the
    registry update is answered with its error and nobody is notified; a
    success is answered 200, whatever the notification does. *)
Theorem restUpdateDevice_persists_merged :
  forall (cfg : ConfigurationStruct.t) (E : Env) (s s1 : St E)
         (rd old merged : Device.t),
    (handle E (GetDeviceById (Hex (Device.Id rd))) s = (Ok old, s1)
     \/ exists e1 s0,
         handle E (GetDeviceById (Hex (Device.Id rd))) s = (Err e1, s0)
         /\ handle E (GetDeviceByName (Device.Name rd)) s0 = (Ok old, s1)) ->
    let merge := run E (updateDeviceFields rd old) s1 in
    value merge = (None, merged) ->
    let r := run E (restUpdateDevice cfg (Ok rd)) s in
    let answer := fst (handle E (UpdateDevice merged) (final merge)) in
    updateAttempt (trace r) = Some (merged, answer)
    /\ response (trace r)
       = match answer with
         | Some e => [HttpError (Error e) StatusServiceUnavailable]
         | None => [WriteHeader StatusOK; Write "true"]
         end
    /\ (answer <> None -> associateCall (trace r) = None).
Proof.
  intros cfg E s s1 rd old merged Hfound merge Hv r answer.
  pose proof (updateDeviceFields_reads_only E s1 rd old) as (Hw & Hr & Hu).
  fold merge in Hw, Hr, Hu.
  assert (Hs : associateCall (trace merge) = None).
  { subst merge. clear. unfold updateDeviceFields. run_cases; reflexivity. }
  subst r answer. unfold restUpdateDevice, orReturn.
  cbn [bind ret Monad_Prog pbind call]. rewrite run_Call.
  unfold updateAttempt, associateCall in *.
  destruct Hfound as [H1 | (e1 & s0 & H1 & H2)]; rewrite H1; cbn [fst snd pbind];
    [| rewrite run_Call, H2; cbn [fst snd pbind]];
    rewrite 2!run_bind_proj; fold merge; rewrite Hv;
    cbn [fst snd trace value pbind firstOf asUpdate asAssociatesCall response];
    rewrite !response_app, !firstOf_app, Hr, Hu, Hs;
    generalize (final merge); intros s2; cbn [app];
    unfold notifyDeviceAssociates, postNotification;
    run_cases; cbn; repeat split; try reflexivity;
    intros H; first [reflexivity | contradiction].
Qed.

Lemma restUpdateDevice_persists_merged_witness :
  updateAttempt (trace (run Mem.env (restUpdateDevice cfg (Ok rename)) (registry Mem.noFaults)))
  = Some (Device.setName "boiler" dev1, None).
Proof.
  refine (proj1 (@restUpdateDevice_persists_merged cfg Mem.env (registry Mem.noFaults)
                   (registry Mem.noFaults) rename dev1 (Device.setName "boiler" dev1) _ _)).
  - left. reflexivity.
  - reflexivity.
Defined.

(** ** Delete, further *)

Lemma cascade_quiet (reports done : list DeviceReport.t) (tr : list event)
  (failure : option (DeviceReport.t * error)) :
  cascade reports tr done failure ->
  deleteAttempt tr = None /\ associateOutcome tr = None
  /\ response tr
     = match failure with
       | Some (_, e) => [HttpError (Error e) StatusServiceUnavailable]
       | None => []
       end.
Proof.
  induction 1 as [| r rs x tr done failure _ IH | r rs e]; cbn.
  - repeat split.
  - exact IH.
  - repeat split.
Qed.

(** The outcomes of the delete of a device. *)
Lemma deleteDevice_result :
  forall (cfg : ConfigurationStruct.t) (E : Env) (s : St E) (d : Device.t),
    let r := run E (deleteDevice cfg d) s in
    match value r with
    | None =>
        response (trace r) = []
        /\ deleteAttempt (trace r) = Some (d, None)
        /\ associateOutcome (trace r) = Some None
    | Some e =>
        delivered (trace r) = false
        /\ match deleteAttempt (trace r) with
           | None =>
               response (trace r)
               = [HttpError (Error e) StatusServiceUnavailable;
                  HttpError (Error e) StatusServiceUnavailable]
           | Some (d', _) =>
               d' = d
               /\ response (trace r) = [HttpError (Error e) StatusServiceUnavailable]
           end
    end.
Proof.
  intros cfg E s d r. subst r.
  unfold deleteDevice, deleteAssociatedReportsForDevice.
  cbn [bind ret Monad_Prog pbind call]. rewrite run_Call.
  destruct (handle E (GetDeviceReportByDeviceName (Device.Name d)) s) as [x s1].
  cbn in x. cbn [fst snd trace value].
  destruct x as [reports | e].
  - rewrite run_bind_proj. cbn [fst snd trace value].
    destruct (deleteReports_cascade E reports s1) as (done & failure & Hc & Hv).
    destruct (cascade_quiet Hc) as (Hd & Ha & Hr).
    rewrite Hv. unfold delivered, deleteAttempt, associateOutcome in *.
    cbn [firstOf asDelete asAssociates response].
    rewrite !firstOf_app, !response_app, Hd, Ha, Hr.
    generalize (final (run E (deleteReports reports) s1)). intros s2.
    destruct failure as [[failed e] |]; cbn [option_map snd].
    + cbn. split; reflexivity.
    + unfold notifyDeviceAssociates, postNotification.
      run_cases; cbn; repeat split; reflexivity.
  - cbn. split; reflexivity.
Qed.

(** X8.  The delete of a device returns nil only after the device was
    deleted and the associates notified, with nothing written on the
    response.  A failure while the reports are enumerated or deleted is
    written on the response twice, once by each of the two functions
    involved, and the device deletion is not attempted; a failure of the
    device deletion or of the notification is written once. *)
Theorem deleteDevice_outcome :
  forall (cfg : ConfigurationStruct.t) (E : Env) (s : St E) (d : Device.t),
    let r := run E (deleteDevice cfg d) s in
    match value r with
    | None =>
        response (trace r) = []
        /\ deleteAttempt (trace r) = Some (d, None)
        /\ associateOutcome (trace r) = Some None
    | Some e =>
        delivered (trace r) = false
        /\ match deleteAttempt (trace r) with
           | None =>
               response (trace r)
               = [HttpError (Error e) StatusServiceUnavailable;
                  HttpError (Error e) StatusServiceUnavailable]
           | Some (d', _) =>
               d' = d
               /\ response (trace r) = [HttpError (Error e) StatusServiceUnavailable]
           end
    end.
Proof. exact deleteDevice_result. Qed.

(** X9.  The two delete handlers answer "true" exactly when the associate
    notifier was reached and reported no error; in every other run "true"
    is not written. *)
Theorem restDeleteDevice_answers_true :
  forall (cfg : ConfigurationStruct.t) (E : Env) (s : St E) (did n : string),
    let byId := trace (run E (restDeleteDeviceById cfg did) s) in
    let byName := trace (run E (restDeleteDeviceByName cfg (Ok n)) s) in
    (if delivered byId
     then response byId = [Write "true"]
     else ~ In (Write "true") (response byId))
    /\ (if delivered byName
        then response byName
             = [HeaderSet "Content-Type" "application/json"; WriteHeader StatusOK; Write "true"]
        else ~ In (Write "true") (response byName)).
Proof.
  intros cfg E s did n byId byName. subst byId byName.
  unfold restDeleteDeviceById, restDeleteDeviceByName, orReturn.
  cbn [bind ret Monad_Prog pbind call]. rewrite !run_Call. cbn [trace fst snd].
  split.
  - destruct (handle E (GetDeviceById did) s) as [x s1]. cbn in x. cbn [fst snd].
    destruct x as [d | e].
    + cbn [pbind]. rewrite 2!run_bind_proj. cbn [trace value fst snd].
      pose proof (deleteDevice_result cfg E s1 d) as H. cbv zeta in H.
      destruct (run E (deleteDevice cfg d) s1) as [[v tr] s2].
      cbn [value trace final fst snd] in *.
      unfold delivered, associateOutcome, deleteAttempt in *.
      cbn [firstOf asAssociates response]. rewrite !firstOf_app, !response_app.
      destruct v as [e |].
      * destruct H as (Hn & H).
        assert (Hresp : ~ In (Write "true") (response tr)).
        { destruct (firstOf asDelete tr) as [[d' x] |]; [destruct H as (_ & ->) | rewrite H];
            cbn; intros Hin; repeat (destruct Hin as [Hin | Hin]; [discriminate|]);
            exact Hin. }
        cbn. rewrite !app_nil_r.
        destruct (firstOf asAssociates tr) as [[e' |] |]; try exact Hresp. discriminate Hn.
      * destruct H as (-> & _ & ->). reflexivity.
    + run_cases; cbn; intros Hin; repeat (destruct Hin as [Hin | Hin]; [discriminate|]);
        exact Hin.
  - destruct (handle E (GetDeviceByName n) s) as [x s1]. cbn in x. cbn [fst snd].
    destruct x as [d | e].
    + cbn [pbind]. rewrite 2!run_bind_proj. cbn [trace value fst snd].
      pose proof (deleteDevice_result cfg E s1 d) as H. cbv zeta in H.
      destruct (run E (deleteDevice cfg d) s1) as [[v tr] s2].
      cbn [value trace final fst snd] in *.
      unfold delivered, associateOutcome, deleteAttempt in *.
      cbn [firstOf asAssociates response]. rewrite !firstOf_app, !response_app.
      destruct v as [e |].
      * destruct H as (Hn & H).
        assert (Hresp : ~ In (Write "true") (response tr)).
        { destruct (firstOf asDelete tr) as [[d' x] |]; [destruct H as (_ & ->) | rewrite H];
            cbn; intros Hin; repeat (destruct Hin as [Hin | Hin]; [discriminate|]);
            exact Hin. }
        cbn. rewrite !app_nil_r.
        destruct (firstOf asAssociates tr) as [[e' |] |]; try exact Hresp. discriminate Hn.
      * destruct H as (-> & _ & ->). reflexivity.
    + cbn; intros Hin; repeat (destruct Hin as [Hin | Hin]; [discriminate|]); exact Hin.
Qed.

Lemma restDeleteDevice_answers_true_witness :
  response (trace (run Mem.env (restDeleteDeviceById cfg (Hex "device000001"))
                       (registry Mem.noFaults)))
  = [Write "true"]
  /\ ~ In (Write "true")
         (response (trace (run Mem.env (restDeleteDeviceByName cfg (Ok "thermostat"))
                               (registry notifierDown)))).
Proof.
  split.
  - exact (proj1 (restDeleteDevice_answers_true cfg Mem.env (registry Mem.noFaults)
                    (Hex "device000001") "thermostat")).
  - exact (proj2 (restDeleteDevice_answers_true cfg Mem.env (registry notifierDown)
                    (Hex "device000001") "thermostat")).
Defined.

(** X10.  When the lookup of the device fails, the delete by name answers
    404 whatever the failure is, a backend error included; the delete by
    id answers 404 only for not found and 503 otherwise.  Neither goes on
    to the registry. *)
Theorem restDeleteDevice_lookup_failure :
  forall (cfg : ConfigurationStruct.t) (E : Env) (s s1 : St E) (did n : string) (e : error),
    (handle E (GetDeviceByName n) s = (Err e, s1) ->
     run E (restDeleteDeviceByName cfg (Ok n)) s
     = (tt, [ECall (GetDeviceByName n) (Err e);
             EOut (LogError (Error e));
             EOut (HttpError (Error e) StatusNotFound)], s1))
    /\ (handle E (GetDeviceById did) s = (Err e, s1) ->
        run E (restDeleteDeviceById cfg did) s
        = (tt, [ECall (GetDeviceById did) (Err e);
                EOut (HttpError (Error e)
                        (if isErrNotFound e then StatusNotFound
                         else StatusServiceUnavailable));
                EOut (LogError (Error e))], s1)).
Proof.
  intros cfg E s s1 did n e. split; intros H.
  - unfold restDeleteDeviceByName, orReturn. cbn [bind ret Monad_Prog pbind call run].
    rewrite H. reflexivity.
  - unfold restDeleteDeviceById, orReturn. cbn [bind ret Monad_Prog pbind call run].
    rewrite H. destruct e; reflexivity.
Qed.

(** With the registry failing to look devices up by name, the delete by
    name answers 404 with the message of the backend. *)
Lemma restDeleteDevice_lookup_failure_witness :
  response (trace (run Mem.env (restDeleteDeviceByName cfg (Ok "thermostat"))
                       (registry Cases.lookupDown)))
  = [HttpError "connection refused" StatusNotFound].
Proof.
  rewrite (proj1 (@restDeleteDevice_lookup_failure cfg Mem.env
                    (registry Cases.lookupDown) (registry Cases.lookupDown)
                    "" "thermostat" backendDown) eq_refl).
  reflexivity.
Defined.

(** ** The setters of a single field, further *)

Ltac setter_cases :=
  unfold updatesOnly, answersByUpdate, answersByDelivery, delivered,
    setLastConnected, setLastReported, parsed, fetched,
    notifyDeviceAssociates, postNotification;
  run_cases; cbn.

(** X11.  An admin state that models.GetAdminState rejects is answered
    with the invalid-state error, by id and by name alike, before any call
    is made. *)
Theorem restSetDeviceAdminState_rejected :
  forall (cfg : ConfigurationStruct.t) (GetAdminState : string -> string * bool)
         (E : Env) (s : St E) (did n as_ : string),
    snd (GetAdminState as_) = false ->
    let msg := ("Invalid State: " ++ as_ ++ " Must be 'LOCKED' or 'UNLOCKED'")%string in
    run E (restSetDeviceAdminStateById cfg GetAdminState did as_) s
    = (tt, [EOut (LogError msg); EOut (HttpError msg StatusServiceUnavailable)], s)
    /\ run E (restSetDeviceAdminStateByName cfg GetAdminState (Ok n) as_) s
       = (tt, [EOut (LogError msg); EOut (HttpError msg StatusServiceUnavailable)], s).
Proof.
  intros cfg G E s did n as_ H msg.
  unfold restSetDeviceAdminStateById, restSetDeviceAdminStateByName.
  rewrite H. split; reflexivity.
Qed.

Lemma restSetDeviceAdminState_rejected_witness :
  run Mem.env (restSetDeviceAdminStateById cfg lockedOrUnlocked (Hex "device000001") "OPEN")
      (registry Mem.noFaults)
  = (tt,
     [EOut (LogError "Invalid State: OPEN Must be 'LOCKED' or 'UNLOCKED'");
      EOut (HttpError "Invalid State: OPEN Must be 'LOCKED' or 'UNLOCKED'"
                      StatusServiceUnavailable)],
     registry Mem.noFaults).
Proof.
  refine (proj1 (@restSetDeviceAdminState_rejected cfg lockedOrUnlocked Mem.env
                   (registry Mem.noFaults) (Hex "device000001") "thermostat" "OPEN" _)).
  reflexivity.
Defined.

(** X12.  The two admin-state handlers answer 200 exactly when the
    associate notifier was called and reported no error, and with one
    error in every other run: unlike the other setters they report a
    failed notification. *)
Theorem restSetDeviceAdminState_answers_by_delivery :
  forall (cfg : ConfigurationStruct.t) (GetAdminState : string -> string * bool)
         (E : Env) (s : St E) (did n as_ : string),
    answersByDelivery
      (trace (run E (restSetDeviceAdminStateById cfg GetAdminState did as_) s))
    /\ answersByDelivery
         (trace (run E (restSetDeviceAdminStateByName cfg GetAdminState (Ok n) as_) s)).
Proof.
  intros cfg G E s did n as_.
  unfold restSetDeviceAdminStateById, restSetDeviceAdminStateByName.
  destruct (G as_) as [newAs f].
  split; setter_cases; first [ reflexivity | eexists; eexists; reflexivity ].
Qed.



(** X15.  The eight timestamp setters and the operating-state setter by
    name answer by the registry update alone: 200 when it succeeded, also
    when the notification failed; its error when it failed; and when the
    update was not attempted (a parameter that does not parse, a device
    that cannot be fetched) one error, without any change of the
    registry. *)
Theorem timestamp_setters_answer_by_update :
  forall (cfg : ConfigurationStruct.t) (E : Env) (s : St E) (did os : string)
         (n : result string) (t : result Z) (notify : result bool),
    answersByUpdate (trace (run E (restSetDeviceLastConnectedById cfg did t) s))
    /\ answersByUpdate (trace (run E (restSetLastConnectedByIdNotify cfg did notify t) s))
    /\ answersByUpdate (trace (run E (restSetDeviceLastConnectedByName cfg n t) s))
    /\ answersByUpdate
         (trace (run E (restSetDeviceLastConnectedByNameNotify cfg n t notify) s))
    /\ answersByUpdate (trace (run E (restSetDeviceLastReportedById cfg did t) s))
    /\ answersByUpdate
         (trace (run E (restSetDeviceLastReportedByIdNotify cfg did t notify) s))
    /\ answersByUpdate (trace (run E (restSetDeviceLastReportedByName cfg n t) s))
    /\ answersByUpdate
         (trace (run E (restSetDeviceLastReportedByNameNotify cfg n t notify) s))
    /\ answersByUpdate (trace (run E (restSetDeviceOpStateByName cfg n os) s)).
Proof.
  intros cfg E s did os n t notify.
  unfold restSetDeviceLastConnectedById, restSetLastConnectedByIdNotify,
    restSetDeviceLastConnectedByName, restSetDeviceLastConnectedByNameNotify,
    restSetDeviceLastReportedById, restSetDeviceLastReportedByIdNotify,
    restSetDeviceLastReportedByName, restSetDeviceLastReportedByNameNotify,
    restSetDeviceOpStateByName.
  destruct (GetOperatingState os) as [newOs g].
  destruct n as [n | en], t as [t | et], notify as [[|] | eb];
    repeat split; setter_cases;
    first [ reflexivity
          | eexists; eexists; reflexivity
          | split; [reflexivity | eexists; eexists; reflexivity] ].
Qed.

(** X16.  setLastConnected and setLastReported submit the device with
    the timestamp set and return the error of the registry update; they
    start the notification of the associates exactly when the caller asked
    for it and the update succeeded. *)
Theorem timestamp_notification_on_request :
  forall (cfg : ConfigurationStruct.t) (E : Env) (s : St E) (d : Device.t) (t : Z)
         (notify : bool),
    let connected := run E (setLastConnected cfg d t notify) s in
    let reported := run E (setLastReported cfg d t notify) s in
    (updateAttempt (trace connected) = Some (Device.setLastConnected t d, value connected)
     /\ notified (trace connected) = notify && succeeded (value connected))
    /\ (updateAttempt (trace reported) = Some (Device.setLastReported t d, value reported)
        /\ notified (trace reported) = notify && succeeded (value reported)).
Proof.
  intros cfg E s d t notify connected reported. subst connected reported.
  unfold notified. destruct notify; repeat split; setter_cases; reflexivity.
Qed.

(** ** The handlers that answer a query, further *)

Ltac query_step :=
  match goal with
  | |- context [answer ?E ?q ?s] =>
      let x := fresh "x" in
      let s' := fresh "s" in
      destruct (answer E q s) as [x s']; cbn in x;
      match type of x with
      | result _ => destruct x
      | option _ => destruct x
      | _ => idtac
      end
  | |- context [qrun _ (if ?b then _ else _) _] => destruct b eqn:?
  | |- context [qbind (if ?b then _ else _) _] => destruct b eqn:?
  end.

Ltac query_simpl :=
  cbn [qrun qbind bind ret Monad_Query ask tell orStop logError httpError encodeJSON
       parent listed unescaped fst snd qtrace errOf destOf].

Ltac query_cases := query_simpl; repeat (query_step; query_simpl).

(** X17.  The listing of all devices answers with the whole list when
    its length is at most ReadMaxLimit, that length included, and with 413
    "Max limit exceeded" when it is longer; a failure of the registry is
    answered 503. *)
Theorem restGetAllDevices_limit :
  forall (ReadMaxLimit : Z) (E : QueryEnv) (s : QSt E),
    answered (qtrace (qrun E (restGetAllDevices ReadMaxLimit) s))
    = match fst (answer E GetAllDevices s) with
      | Err e => [written (HttpError (Error e) StatusServiceUnavailable)]
      | Ok res =>
          if (Z.of_nat (length res) <=? ReadMaxLimit)%Z
          then jsonOf (someDevices res)
          else [written (HttpError "Max limit exceeded" StatusRequestEntityTooLarge)]
      end.
Proof.
  intros limit E s. unfold restGetAllDevices.
  query_cases; cbn; try reflexivity.
  - destruct (Z.leb_spec (Z.of_nat (length a)) limit); [|reflexivity].
    apply Z.gtb_lt in Heqb. lia.
  - destruct (Z.leb_spec (Z.of_nat (length a)) limit); [reflexivity|].
    rewrite Z.gtb_ltb, Z.ltb_ge in Heqb. lia.
Qed.

(** X18.  The six handlers that list the devices of a profile, a service
    or an addressable list only once the parent has been found, under the
    id given or, for the handlers by name, under the id of the parent
    found; the list returned is encoded whole, the empty list too.  A
    parent not found is answered 404, any other failure 503, and the
    devices are then not listed. *)
Theorem listing_handlers_list_under_parent :
  forall (E : QueryEnv) (s : QSt E) (key : string),
    listsUnder (fst (answer E (onRegistry (GetDeviceProfileById key)) s))
               (fun _ => GetDevicesByProfileId key)
               (qtrace (qrun E (restGetDeviceByProfileId key) s))
    /\ listsUnder (fst (answer E (onRegistry (GetDeviceServiceById key)) s))
                  (fun _ => GetDevicesByServiceId key)
                  (qtrace (qrun E (restGetDeviceByServiceId key) s))
    /\ listsUnder (fst (answer E (onRegistry (GetAddressableById key)) s))
                  (fun _ => GetDevicesByAddressableId key)
                  (qtrace (qrun E (restGetDeviceByAddressableId key) s))
    /\ listsUnder (fst (answer E (onRegistry (GetDeviceProfileByName key)) s))
                  (fun dp => GetDevicesByProfileId (Hex (DeviceProfile.Id dp)))
                  (qtrace (qrun E (restGetDeviceByProfileName (Ok key)) s))
    /\ listsUnder (fst (answer E (onRegistry (GetDeviceServiceByName key)) s))
                  (fun ds => GetDevicesByServiceId
                               (Hex (Service.Id (DeviceService.Service ds))))
                  (qtrace (qrun E (restGetDeviceByServiceName (Ok key)) s))
    /\ listsUnder (fst (answer E (onRegistry (GetAddressableByName key)) s))
                  (fun a => GetDevicesByAddressableId (Hex (Addressable.Id a)))
                  (qtrace (qrun E (restGetDeviceByAddressableName (Ok key)) s)).
Proof.
  intros E s key.
  unfold listsUnder, restGetDeviceByProfileId, restGetDeviceByServiceId,
    restGetDeviceByAddressableId, restGetDeviceByProfileName,
    restGetDeviceByServiceName, restGetDeviceByAddressableName.
  repeat split; query_cases; cbn; repeat split; try reflexivity.
Qed.

(** X19.  The check for a device looks the token up as a name first.  A
    device found with a name is encoded and the token is not looked up as
    an id; a backend failure of the name lookup is answered 500.  When no
    device was found by name, the token is looked up as an id if it has
    the form of an object id, and answered 404 "device not found" without
    any further lookup if it has not. *)
Theorem restCheckForDevice_name_then_id :
  forall (IsObjectIdHex : string -> bool) (E : QueryEnv) (s : QSt E) (token : string),
    let tr := qtrace (qrun E (restCheckForDevice IsObjectIdHex token) s) in
    match fst (answer E (onRegistry (GetDeviceByName token)) s) with
    | Ok dev =>
        if (String.length (Device.Name dev) =? 0)%nat
        then checkedById (IsObjectIdHex token) token tr
        else idLookedUp tr = None /\ answered tr = jsonOf (oneDevice dev)
    | Err ErrNotFound => checkedById (IsObjectIdHex token) token tr
    | Err e =>
        idLookedUp tr = None
        /\ answered tr = [written (HttpError (Error e) StatusInternalServerError)]
    end.
Proof.
  intros H E s token tr. subst tr.
  unfold checkedById, restCheckForDevice.
  query_cases;
    repeat match goal with
      | Hb : neqErrNotFound (Some ?e) = _ |- _ =>
          destruct e; cbn in Hb; try discriminate Hb; clear Hb
      | Hb : neqErrNotFound None = _ |- _ => clear Hb
      | Hb : (_ =? 0)%nat = _ |- _ => cbn in Hb; try discriminate Hb; try rewrite Hb; clear Hb
      | Hb : H token = _ |- _ => rewrite Hb; clear Hb; cbn
      | Hb : isErrNotFound _ = _ |- _ => rewrite Hb; clear Hb; cbn
      | |- _ => progress cbn
      end; repeat split; reflexivity.
Qed.

(** The query handlers on the in-memory registry. *)
Example queries_on_the_registry :
  answered (qtrace (qrun MemQuery.env (restGetAllDevices 1) (registry Mem.noFaults)))
  = [written (HttpError "Max limit exceeded" StatusRequestEntityTooLarge)]
  /\ answered (qtrace (qrun MemQuery.env (restGetAllDevices 2) (registry Mem.noFaults)))
     = jsonOf (someDevices [dev1; dev2])
  /\ answered (qtrace (qrun MemQuery.env (restGetDeviceByAddressableName (Ok "addr2"))
                            (registry Mem.noFaults)))
     = jsonOf (someDevices [dev2])
  /\ answered (qtrace (qrun MemQuery.env (restGetDevicesWithLabel (Ok "garden"))
                            (registry Mem.noFaults)))
     = jsonOf (someDevices [])
  /\ answered (qtrace (qrun MemQuery.env
                            (restCheckForDevice (fun t => Nat.eqb (String.length t) 24)
                               (Hex "device000002"))
                            (registry Mem.noFaults)))
     = jsonOf (oneDevice dev2)
  /\ answered (qtrace (qrun MemQuery.env
                            (restCheckForDevice (fun t => Nat.eqb (String.length t) 24)
                               "sprinkler")
                            (registry Mem.noFaults)))
     = [written (HttpError "device not found: sprinkler" StatusNotFound)].
Proof. vm_compute. repeat split; reflexivity. Qed.
